(** * dexscreener_bot: admission pipeline and trend analysis

    A shallow embedding of [dexscreener_bot.py]: the two verification
    helpers [verify_volume] and [verify_rugcheck], the per-candidate body of
    [main_loop], one cycle of the scheduler loop, and
    [analyze_token_trends].

    Python values are an inductive type of JSON-shaped values, Python floats
    are IEEE-754 binary64 numbers (the Standard Library's [spec_float] at
    precision 53 and maximal exponent 1024), exceptions are an error type,
    and the network, the clock and the database commit are functions of a
    [world] record that the code consults, with every call written to a
    trace. *)

From Stdlib Require Import ZArith List String Ascii Bool Lia.
From Stdlib Require Import Floats.SpecFloat.
From Stdlib Require Import Sorted OrderedTypeEx.
Import ListNotations.

Local Open Scope string_scope.
Local Open Scope Z_scope.

(** ** Binary64 floats *)

Definition float : Type := spec_float.

Module F64.

Definition prec : Z := 53.
Definition emax : Z := 1024.

Definition add : float -> float -> float := SFadd prec emax.
Definition sub : float -> float -> float := SFsub prec emax.
Definition mul : float -> float -> float := SFmul prec emax.
Definition div : float -> float -> float := SFdiv prec emax.

(** [x < y] and [x <= y]; both are [false] as soon as one side is NaN. *)
Definition ltb : float -> float -> bool := SFltb.
Definition leb : float -> float -> bool := SFleb.
Definition eqb : float -> float -> bool := SFeqb.

(** The float nearest to an integer (round to nearest, ties to even). *)
Definition of_Z (z : Z) : float := binary_normalize prec emax z 0 false.

(** The float nearest to the rational [n / d]: what a decimal literal such
    as [1.6] (16 / 10) denotes. *)
Definition of_ratio (n d : Z) : float := div (of_Z n) (of_Z d).

Definition zero : float := S754_zero false.
Definition inf : float := S754_infinity false.

Definition is_nan (x : float) : bool :=
  match x with S754_nan => true | _ => false end.

Definition is_inf (x : float) : bool :=
  match x with S754_infinity _ => true | _ => false end.

Definition is_zero (x : float) : bool :=
  match x with S754_zero _ => true | _ => false end.

(** Sign bit of a float that is not NaN. *)
Definition sign (x : float) : bool :=
  match x with
  | S754_zero s | S754_infinity s | S754_finite s _ _ => s
  | S754_nan => false
  end.

End F64.

#[local] Set Warnings "-register-all".

(** ** Python values and exceptions *)

(** What [json.load] and [response.json()] produce. A dict is an association
    list read from the left. *)
Inductive pyval : Type :=
| PNone
| PBool (b : bool)
| PInt (z : Z)
| PFloat (f : float)
| PStr (s : string)
| PList (l : list pyval)
| PDict (d : list (string * pyval)).

(** The subclasses of [Exception] that the code can meet. [TransportError]
    stands for whatever [requests] raises: connection errors, the
    [HTTPError] of [raise_for_status], a body that is not JSON. *)
Inductive exn : Type :=
| TypeError
| ValueError
| AttributeError
| IndexError
| KeyError
| OverflowError
| TransportError
| DatabaseError.

Inductive res (A : Type) : Type :=
| Ok (a : A)
| Raise (e : exn).
Arguments Ok {A} a.
Arguments Raise {A} e.

Fixpoint assoc {A : Type} (k : string) (d : list (string * A)) : option A :=
  match d with
  | [] => None
  | (k', v) :: d' => if String.eqb k k' then Some v else assoc k d'
  end.

(** [v.get(k, dflt)]: only a dict has the method. *)
Definition py_get (v : pyval) (k : string) (dflt : pyval) : res pyval :=
  match v with
  | PDict d => Ok (match assoc k d with Some x => x | None => dflt end)
  | _ => Raise AttributeError
  end.

(** Truth value of [v] in [if v], [not v], [a and b]. *)
Definition py_truthy (v : pyval) : bool :=
  match v with
  | PNone => false
  | PBool b => b
  | PInt z => negb (Z.eqb z 0)
  | PFloat f => negb (F64.is_zero f)
  | PStr s => negb (String.eqb s "")
  | PList l => match l with [] => false | _ => true end
  | PDict d => match d with [] => false | _ => true end
  end.

(** [v[0]]. *)
Definition py_index0 (v : pyval) : res pyval :=
  match v with
  | PList [] => Raise IndexError
  | PList (x :: _) => Ok x
  | PDict _ => Raise KeyError
  | PStr EmptyString => Raise IndexError
  | PStr (String c _) => Ok (PStr (String c EmptyString))
  | _ => Raise TypeError
  end.

Definition opt_truthy (o : option string) : bool :=
  match o with
  | Some s => negb (String.eqb s "")
  | None => false
  end.

(** [x == s] for a Python value [x] and a string [s]. *)
Definition py_eq_str (x : pyval) (s : string) : bool :=
  match x with
  | PStr s' => String.eqb s' s
  | _ => false
  end.

(** [x in l] for a list [l] of strings. *)
Definition py_in_strs (x : pyval) (l : list string) : bool :=
  existsb (py_eq_str x) l.

(** ** Configuration

    [config.json] with the shape the module docstring documents. An absent
    key is [None] (or [false] for the two flags, whose [.get] default is
    [False]); an absent section is the section with every key absent, as
    [config.get(section, {})] makes it. Numbers are taken at their float
    value. *)

Record filters_config : Type := {
  min_liquidity_usd : option float;
  min_price_usd : option float;
  max_price_usd : option float
}.

Record pocket_universe_config : Type := {
  pu_api_url : option string;
  pu_api_token : option string
}.

Record volume_config : Type := {
  use_internal_algorithm : bool;
  fake_volume_threshold : option float;
  use_pocket_universe : bool;
  pocket_universe : pocket_universe_config
}.

Record rugcheck_config : Type := {
  required_status : option string;
  rc_api_url : option string;
  rc_api_token : option string
}.

Record telegram_config : Type := {
  bot_token : option string;
  chat_id : option string
}.

Record config : Type := {
  filters : filters_config;
  coin_blacklist : list string;
  dev_blacklist : list string;
  volume_verification : volume_config;
  rugcheck : rugcheck_config;
  telegram : telegram_config
}.

Definition get_or {A : Type} (o : option A) (dflt : A) : A :=
  match o with
  | Some a => a
  | None => dflt
  end.

(** ** Snapshots, events and the outside world *)

(** A [TokenSnapshot] as [main_loop] constructs it; [id] and [timestamp]
    are filled in when the row is written. *)
Record TokenSnapshot : Type := {
  token_address : pyval;
  chain_id : pyval;
  icon : pyval;
  description : pyval;
  links : pyval;
  price_usd : float;
  liquidity : float;
  volume_usd : float;
  developer : pyval
}.

(** A row of the table [token_snapshots]; [timestamp] in microseconds since
    the epoch. *)
Record row : Type := {
  id : nat;
  snapshot : TokenSnapshot;
  timestamp : Z
}.

(** Everything a cycle does that is visible from outside, in order. The two
    [EvVerify...] events mark the entry into the verification helpers. *)
Inductive event : Type :=
| EvGetProfiles
| EvGetTokenInfo (chain addr : pyval)
| EvVerifyVolume (token_data : pyval)
| EvPocketUniverse (url token : string) (addr : pyval)
| EvVerifyRugcheck (token_data : pyval)
| EvRugcheck (url token : string) (addr : pyval)
| EvAdd (s : TokenSnapshot)
| EvCommit
| EvRollback
| EvTelegram (token : string) (pct : float)
| EvSleep (seconds : Z).

(** What the code does not decide: two built-ins of Python, the answers of
    the three HTTP services (which may depend on everything that happened
    before), the clock, the outcome of a commit, and whether the query and
    the data frame of the analysis fail (a database or memory error). An
    HTTP answer is the decoded JSON body, or the exception raised on the way
    to it. *)
Record world : Type := {
  str_lower : string -> string;
  float_of_str : string -> option float;
  http_profiles : list event -> res pyval;
  http_token_info : list event -> pyval -> pyval -> res pyval;
  http_pocket_universe : list event -> string -> string -> pyval -> res pyval;
  http_rugcheck : list event -> string -> string -> pyval -> res pyval;
  utcnow : nat -> Z;
  db_commit_error : list event -> list TokenSnapshot -> option exn;
  analysis_error : list event -> list row -> option exn
}.

(** The trace so far, the snapshots added to the session and not yet
    committed, and the committed table. *)
Record state : Type := {
  trace : list event;
  pending : list TokenSnapshot;
  store : list row
}.

(** ** A state and exception monad *)

Definition M (A : Type) : Type := state -> res A * state.

Definition ret {A : Type} (a : A) : M A := fun st => (Ok a, st).

Definition raise {A : Type} (e : exn) : M A := fun st => (Raise e, st).

Definition bind {A B : Type} (c : M A) (k : A -> M B) : M B :=
  fun st =>
    match c st with
    | (Ok a, st') => k a st'
    | (Raise e, st') => (Raise e, st')
    end.

Definition lift {A : Type} (r : res A) : M A := fun st => (r, st).

(** [try: c except Exception: h]. *)
Definition try_except {A : Type} (c : M A) (h : exn -> M A) : M A :=
  fun st =>
    match c st with
    | (Ok a, st') => (Ok a, st')
    | (Raise e, st') => h e st'
    end.

Definition record_event (e : event) (st : state) : state :=
  {| trace := trace st ++ [e]; pending := pending st; store := store st |}.

Definition emit (e : event) : M unit :=
  fun st => (Ok tt, record_event e st).

(** Ask the world with the trace so far, then record the call. *)
Definition call {A : Type} (ask : list event -> res A) (e : event) : M A :=
  fun st => (ask (trace st), record_event e st).

Declare Scope monad_scope.
Delimit Scope monad_scope with monad.
Notation "x <- c ;; k" := (bind c (fun x => k))
  (at level 61, c at next level, right associativity) : monad_scope.
Notation "c ;; k" := (bind c (fun _ => k))
  (at level 61, right associativity) : monad_scope.
Local Open Scope monad_scope.

(** ** Analysis module *)

Definition hour_us : Z := 3600 * 1000000.

(** The hourly bin of a timestamp ([Z.div] rounds down). *)
Definition hour_of (ts : Z) : Z := ts / hour_us.

(** The [token_address] column as the data frame groups on it: a row
    without a string there has a null key, and [groupby] drops it. (A value
    that is neither a string nor null does not come back from a [String]
    column; it is read as null here.) *)
Definition key_of (r : row) : option string :=
  match token_address (snapshot r) with
  | PStr s => Some s
  | _ => None
  end.

Definition price_of (r : row) : float := price_usd (snapshot r).

(** [df.sort_values('timestamp')]. Rows with one timestamp stay in the
    order of the table here; pandas' default sort promises no order for
    them, and no property below depends on the order of equal timestamps. *)
Fixpoint insert_by_timestamp (r : row) (l : list row) : list row :=
  match l with
  | [] => [r]
  | x :: l' =>
      if timestamp r <=? timestamp x then r :: l
      else x :: insert_by_timestamp r l'
  end.

Definition sort_values (df : list row) : list row :=
  fold_right insert_by_timestamp [] df.

(** The keys of [df.groupby('token_address')], ascending and without
    repetition. *)
Fixpoint insert_key (k : string) (l : list string) : list string :=
  match l with
  | [] => [k]
  | x :: l' =>
      match String.compare k x with
      | Lt => k :: l
      | Eq => l
      | Gt => x :: insert_key k l'
      end
  end.

Definition group_keys (df : list row) : list string :=
  fold_right
    (fun r acc => match key_of r with Some k => insert_key k acc | None => acc end)
    [] df.

Definition group (token : string) (df : list row) : list row :=
  filter
    (fun r => match key_of r with Some k => String.eqb k token | None => false end)
    df.

(** [group['price_usd'].resample('1h').last().dropna()] on rows in
    ascending time: per hourly bin the last price that is not null, bins
    without one dropped. NaN is the null of a float column. *)
Fixpoint resample_last (g : list row) : list (Z * float) :=
  match g with
  | [] => []
  | r :: g' =>
      let rest := resample_last g' in
      let h := hour_of (timestamp r) in
      if F64.is_nan (price_of r) then rest
      else
        match rest with
        | (h', _) :: _ => if h =? h' then rest else (h, price_of r) :: rest
        | [] => [(h, price_of r)]
        end
  end.

Definition hourly (token : string) (df : list row) : list float :=
  map snd (resample_last (group token df)).

(** [(last - first) / first * 100] on the [numpy.float64] elements of the
    series: IEEE arithmetic, where a division by zero yields an infinity or
    NaN (with a warning) and raises nothing. *)
Definition percent_change (first last : float) : float :=
  F64.mul (F64.div (F64.sub last first) first) (F64.of_Z 100).

(** The body of the loop over the groups: [None] for [continue] and for a
    change that is not above 50. *)
Definition token_signal (hourly : list float) : option float :=
  if (List.length hourly <? 2)%nat then None
  else
    let change :=
      percent_change (List.hd F64.zero hourly) (List.last hourly F64.zero) in
    if F64.ltb (F64.of_Z 50) change then Some change else None.

Definition analyze_token_trends (snaps : list row) : list (string * float) :=
  match snaps with
  | [] => []
  | _ =>
      let df := sort_values snaps in
      flat_map
        (fun token =>
           match token_signal (hourly token df) with
           | Some change => [(token, change)]
           | None => []
           end)
        (group_keys df)
  end.

(** ** Verification helpers and the scheduler loop *)

(** How one pass through the body of the loop over the candidates ends: at
    one of the five [continue] statements, or at [session_db.add], with the
    answer of [verify_rugcheck] that the body had at that point. *)
Inductive outcome : Type :=
| SkipCoinBlacklist
| SkipDevBlacklist
| SkipLiquidity
| SkipPrice
| SkipVolume
| Added (rugcheck_ok : bool).

Section Bot.

Variable W : world.

(** [float(v)]. An integer too large for a float raises
    [OverflowError]; a string goes through Python's parser. *)
Definition py_float (v : pyval) : res float :=
  match v with
  | PNone => Raise TypeError
  | PBool b => Ok (if b then F64.of_Z 1 else F64.zero)
  | PInt z =>
      let f := F64.of_Z z in
      if F64.is_inf f then Raise OverflowError else Ok f
  | PFloat f => Ok f
  | PStr s =>
      match float_of_str W s with
      | Some f => Ok f
      | None => Raise ValueError
      end
  | PList _ => Raise TypeError
  | PDict _ => Raise TypeError
  end.

(** [float(d.get(outer, {}).get(inner, 0))]. *)
Definition nested_float (d : pyval) (outer inner : string) : res float :=
  match py_get d outer (PDict []) with
  | Raise e => Raise e
  | Ok o =>
      match py_get o inner (PInt 0) with
      | Raise e => Raise e
      | Ok v => py_float v
      end
  end.

(** [float(d.get(key, 0))]. *)
Definition flat_float (d : pyval) (key : string) : res float :=
  match py_get d key (PInt 0) with
  | Raise e => Raise e
  | Ok v => py_float v
  end.

(** [try: x = r except (TypeError, ValueError): x = 0]. Any other
    exception goes on to the caller. *)
Definition or_zero (r : res float) : res float :=
  match r with
  | Raise TypeError => Ok F64.zero
  | Raise ValueError => Ok F64.zero
  | _ => r
  end.

(** *** Volume verification helper *)

Definition verify_volume (token_data : pyval) (cfg : config) : M bool :=
  let vol_ver_config := volume_verification cfg in
  let fake_threshold :=
    get_or (fake_volume_threshold vol_ver_config) (F64.of_Z 5) in
  emit (EvVerifyVolume token_data) ;;
  current_volume <- lift (or_zero (nested_float token_data "volume" "h1")) ;;
  if use_internal_algorithm vol_ver_config
     && F64.ltb current_volume fake_threshold
  then ret false
  else
    if use_pocket_universe vol_ver_config then
      let pu_config := pocket_universe vol_ver_config in
      let api_url := pu_api_url pu_config in
      let api_token := pu_api_token pu_config in
      if opt_truthy api_url && opt_truthy api_token then
        let url := get_or api_url "" in
        let token := get_or api_token "" in
        try_except
          (addr <- lift (py_get token_data "tokenAddress" PNone) ;;
           result <- call (fun tr => http_pocket_universe W tr url token addr)
                          (EvPocketUniverse url token addr) ;;
           authentic <- lift (py_get result "volumeAuthentic" (PBool false)) ;;
           if negb (py_truthy authentic) then ret false else ret true)
          (fun _ => ret false)
      else ret true
    else ret true.

(** *** RugCheck verification helper *)

Definition verify_rugcheck (token_data : pyval) (cfg : config) : M bool :=
  let rugcheck_conf := rugcheck cfg in
  let required := get_or (required_status rugcheck_conf) "Good" in
  let api_url := rc_api_url rugcheck_conf in
  let api_token := rc_api_token rugcheck_conf in
  emit (EvVerifyRugcheck token_data) ;;
  token_addr <- lift (py_get token_data "tokenAddress" PNone) ;;
  if negb (opt_truthy api_url) || negb (opt_truthy api_token)
     || negb (py_truthy token_addr)
  then ret false
  else
    let url := get_or api_url "" in
    let token := get_or api_token "" in
    try_except
      (result <- call (fun tr => http_rugcheck W tr url token token_addr)
                      (EvRugcheck url token token_addr) ;;
       status <- lift (py_get result "status" (PStr "")) ;;
       bundled <- lift (py_get result "bundled" (PBool false)) ;;
       if negb (py_eq_str status required) then ret false
       else if py_truthy bundled then ret false
       else ret true)
      (fun _ => ret false).

(** *** Main scheduler loop *)

(** [v.lower()]. *)
Definition py_lower (v : pyval) : res string :=
  match v with
  | PStr s => Ok (str_lower W s)
  | _ => Raise AttributeError
  end.

(** [dev and (dev.lower() in [d.lower() for d in dev_blacklist])]. *)
Definition dev_blacklisted (dev : pyval) (blacklist : list string) : res bool :=
  if py_truthy dev then
    match py_lower dev with
    | Raise e => Raise e
    | Ok d => Ok (existsb (String.eqb d) (map (str_lower W) blacklist))
    end
  else Ok false.

Definition session_add (s : TokenSnapshot) : M unit :=
  fun st =>
    (Ok tt,
     {| trace := trace st ++ [EvAdd s];
        pending := pending st ++ [s];
        store := store st |}).

(** The body of [for token_data in token_list]. *)
Definition process_candidate (token_data : pyval) (cfg : config) : M outcome :=
  token_addr <- lift (py_get token_data "tokenAddress" PNone) ;;
  if py_in_strs token_addr (coin_blacklist cfg) then ret SkipCoinBlacklist
  else
    dev <- lift (py_get token_data "developer" PNone) ;;
    listed <- lift (dev_blacklisted dev (dev_blacklist cfg)) ;;
    if listed then ret SkipDevBlacklist
    else
      token_adress <- lift (py_get token_data "tokenAddress" PNone) ;;
      chain <- lift (py_get token_data "chainId" PNone) ;;
      pairs <- call (fun tr => http_token_info W tr chain token_adress)
                    (EvGetTokenInfo chain token_adress) ;;
      info <- lift (py_index0 pairs) ;;
      liq <- lift (or_zero (nested_float info "liquidity" "usd")) ;;
      price <- lift (or_zero (flat_float info "priceUsd")) ;;
      if F64.ltb liq (get_or (min_liquidity_usd (filters cfg)) F64.zero)
      then ret SkipLiquidity
      else
        if negb (F64.leb (get_or (min_price_usd (filters cfg)) F64.zero) price
                 && F64.leb price (get_or (max_price_usd (filters cfg)) F64.inf))
        then ret SkipPrice
        else
          volume_ok <- verify_volume info cfg ;;
          if negb volume_ok then ret SkipVolume
          else
            rugcheck_ok <- verify_rugcheck token_data cfg ;;
            vol <- lift (or_zero (nested_float info "volume" "h1")) ;;
            chain_id' <- lift (py_get token_data "chainId" PNone) ;;
            icon' <- lift (py_get token_data "icon" PNone) ;;
            description' <- lift (py_get token_data "description" PNone) ;;
            links' <- lift (py_get token_data "links" PNone) ;;
            developer' <- lift (py_get token_data "developer" PNone) ;;
            session_add
              {| token_address := token_addr;
                 chain_id := chain_id';
                 icon := icon';
                 description := description';
                 links := links';
                 price_usd := price;
                 liquidity := liq;
                 volume_usd := vol;
                 developer := developer' |} ;;
            ret (Added rugcheck_ok).

(** The values a [for] loop over [v] visits. *)
Definition py_iter (v : pyval) : res (list pyval) :=
  match v with
  | PList l => Ok l
  | PDict d => Ok (map (fun kv => PStr (fst kv)) d)
  | PStr s =>
      Ok (map (fun c => PStr (String c EmptyString)) (list_ascii_of_string s))
  | _ => Raise TypeError
  end.

(** The [isinstance] cascade on the fetched profiles. *)
Definition token_list_of (profiles : pyval) : res (list pyval) :=
  match profiles with
  | PDict _ =>
      match py_get profiles "data" (PList []) with
      | Raise e => Raise e
      | Ok v => py_iter v
      end
  | PList l => Ok l
  | _ => Ok []
  end.

Fixpoint for_each (l : list pyval) (body : pyval -> M outcome) : M (list outcome) :=
  match l with
  | [] => ret []
  | x :: l' =>
      o <- body x ;;
      os <- for_each l' body ;;
      ret (o :: os)
  end.

(** The rows a commit writes: each gets the next [id] and the time of its
    insertion. The row keeps the snapshot as constructed; what SQLite does
    to a value on the way (a price [-0.0] read back as [0.0], a numeric
    token address read back as text) is not modelled. *)
Definition insert_rows (table : list row) (new : list TokenSnapshot) : list row :=
  fold_left
    (fun (acc : list row) s =>
       (acc ++ [{| id := S (List.length acc);
                   snapshot := s;
                   timestamp := utcnow W (S (List.length acc)) |}])%list)
    new table.

Definition session_commit : M unit :=
  fun st =>
    match db_commit_error W (trace st) (pending st) with
    | Some e =>
        (Raise e,
         {| trace := trace st ++ [EvCommit];
            pending := pending st;
            store := store st |})
    | None =>
        (Ok tt,
         {| trace := trace st ++ [EvCommit];
            pending := [];
            store := insert_rows (store st) (pending st) |})
    end.

Definition session_rollback : M unit :=
  fun st =>
    (Ok tt,
     {| trace := trace st ++ [EvRollback]; pending := []; store := store st |}).

(** [send_telegram_notification]: nothing without the configuration; a
    failure of the delivery is caught inside. *)
Definition send_telegram_notification (token : string) (pct : float)
    (cfg : config) : M unit :=
  if negb (opt_truthy (bot_token (telegram cfg)))
     || negb (opt_truthy (chat_id (telegram cfg)))
  then ret tt
  else emit (EvTelegram token pct).

Fixpoint notify_all (flagged : list (string * float)) (cfg : config) : M unit :=
  match flagged with
  | [] => ret tt
  | (token, pct) :: rest =>
      send_telegram_notification token pct cfg ;;
      notify_all rest cfg
  end.

(** [analyze_token_trends(session_db, config)] on the committed table: the
    flagged tokens, or the exception of a query or data frame that fails. *)
Definition run_analysis : M (list (string * float)) :=
  fun st =>
    (match analysis_error W (trace st) (store st) with
     | Some e => Raise e
     | None => Ok (analyze_token_trends (store st))
     end,
     st).

(** The [try] block of one iteration of [while True]. *)
Definition cycle_body (cfg : config) : M (list outcome) :=
  profiles <- call (http_profiles W) EvGetProfiles ;;
  token_list <- lift (token_list_of profiles) ;;
  outcomes <- for_each token_list (fun td => process_candidate td cfg) ;;
  session_commit ;;
  flagged <- run_analysis ;;
  notify_all flagged cfg ;;
  ret outcomes.

(** One iteration of [while True]: the [try] block, its handler and the
    sleep. The value says how the [try] block ended. *)
Definition run_cycle (cfg : config) : M (res (list outcome)) :=
  r <- try_except
         (outcomes <- cycle_body cfg ;; ret (Ok outcomes))
         (fun e => session_rollback ;; ret (Raise e)) ;;
  emit (EvSleep 600) ;;
  ret r.

(** The first [n] iterations of [main_loop]. *)
Fixpoint main_loop (n : nat) (cfg : config) : M unit :=
  match n with
  | O => ret tt
  | S n' => run_cycle cfg ;; main_loop n' cfg
  end.

End Bot.

(** ** Vocabulary of the properties *)

(** The events of the two verification helpers: their entry and their
    outbound calls. *)
Definition is_verification (e : event) : bool :=
  match e with
  | EvVerifyVolume _ => true
  | EvPocketUniverse _ _ _ => true
  | EvVerifyRugcheck _ => true
  | EvRugcheck _ _ _ => true
  | _ => false
  end.

Definition no_verification (evs : list event) : bool :=
  forallb (fun e => negb (is_verification e)) evs.

(** [d.get(k)]. *)
Definition field (d : list (string * pyval)) (k : string) : pyval :=
  match assoc k d with
  | Some v => v
  | None => PNone
  end.

(** The value under [outer.inner] of a record, if there is one. *)
Definition nested_value (d : list (string * pyval)) (outer inner : string)
  : option pyval :=
  match assoc outer d with
  | Some (PDict o) => assoc inner o
  | _ => None
  end.

(** The entry [outer] of a record is absent or an object. *)
Definition container_ok (d : list (string * pyval)) (outer : string) : bool :=
  match assoc outer d with
  | None => true
  | Some (PDict _) => true
  | Some _ => false
  end.

(** A value that is no number: null, a list, an object, or a string that
    Python's float parser refuses. *)
Definition non_numeric (W : world) (v : pyval) : bool :=
  match v with
  | PNone => true
  | PList _ => true
  | PDict _ => true
  | PStr s => match float_of_str W s with Some _ => false | None => true end
  | _ => false
  end.

Definition missing_or_non_numeric (W : world) (v : option pyval) : bool :=
  match v with
  | None => true
  | Some x => non_numeric W x
  end.

(** An integer beyond the range of a float: [float] raises [OverflowError]
    on it, which the handlers of the pipeline do not catch. *)
Definition oversized (v : option pyval) : bool :=
  match v with
  | Some (PInt z) => F64.is_inf (F64.of_Z z)
  | _ => false
  end.

(** The number the pipeline reads from a field: [float] of the value, or of
    the default 0 when there is none, with the two caught exceptions turned
    into zero. *)
Definition parsed (W : world) (v : option pyval) : res float :=
  or_zero (py_float W (get_or v (PInt 0))).

(** [min_price_usd <= price <= max_price_usd] with the defaults. *)
Definition in_price_band (cfg : config) (price : float) : bool :=
  F64.leb (get_or (min_price_usd (filters cfg)) F64.zero) price
  && F64.leb price (get_or (max_price_usd (filters cfg)) F64.inf).

Definition below_liquidity_floor (cfg : config) (liq : float) : bool :=
  F64.ltb liq (get_or (min_liquidity_usd (filters cfg)) F64.zero).

(** A computation that leaves the committed table alone. *)
Definition keeps_store {A : Type} (c : M A) : Prop :=
  forall st : state, store (snd (c st)) = store st.

(** A computation that leaves the snapshots of the session alone. *)
Definition keeps_pending {A : Type} (c : M A) : Prop :=
  forall st : state, pending (snd (c st)) = pending st.

(** The outbound calls of the two verification helpers. *)
Definition is_provider_call (e : event) : bool :=
  match e with
  | EvPocketUniverse _ _ _ => true
  | EvRugcheck _ _ _ => true
  | _ => false
  end.

Definition is_added (o : outcome) : bool :=
  match o with
  | Added _ => true
  | _ => false
  end.

(** The number of candidates of a cycle that ended at [session_db.add]. *)
Definition count_added (outs : list outcome) : nat :=
  List.length (filter is_added outs).

(** The snapshot that the body of the loop builds from the candidate
    record and the three numbers it read. *)
Definition snapshot_for (fields : list (string * pyval)) (liq price vol : float)
  : TokenSnapshot :=
  {| token_address := field fields "tokenAddress";
     chain_id := field fields "chainId";
     icon := field fields "icon";
     description := field fields "description";
     links := field fields "links";
     price_usd := price;
     liquidity := liq;
     volume_usd := vol;
     developer := field fields "developer" |}.

(** ** Concrete data *)

Module Examples.

(** [1.0], [1.6] = 0x1.999999999999ap+0, [1.4] = 0x1.6666666666666p+0 and
    [0.01], each the float nearest to the decimal. *)
Definition f_1_0 : float := F64.of_Z 1.
Definition f_1_6 : float := F64.of_ratio 16 10.
Definition f_1_4 : float := F64.of_ratio 14 10.
Definition f_0_01 : float := F64.of_ratio 1 100.

(** [60.00000000000001] = 0x1.e000000000001p+5, the float after [60.0]. *)
Definition f_60_next : float := S754_finite false 8444249301319681 (-47).

Definition snapshot_of (token : string) (price : float) : TokenSnapshot :=
  {| token_address := PStr token;
     chain_id := PStr "solana";
     icon := PNone;
     description := PNone;
     links := PNone;
     price_usd := price;
     liquidity := F64.of_Z 20000;
     volume_usd := F64.of_Z 10;
     developer := PNone |}.

(** Two rows of one token, one hour apart. *)
Definition two_hours (first last : float) : list row :=
  [ {| id := 1; snapshot := snapshot_of "0xA" first; timestamp := 0 |};
    {| id := 2; snapshot := snapshot_of "0xA" last; timestamp := hour_us |} ].

(** Two rows of one token within one hour. *)
Definition one_hour (first last : float) : list row :=
  [ {| id := 1; snapshot := snapshot_of "0xA" first; timestamp := 0 |};
    {| id := 2; snapshot := snapshot_of "0xA" last; timestamp := 600 * 1000000 |} ].

(** [str.lower] on ASCII letters. *)
Definition lower_ascii (c : ascii) : ascii :=
  let n := nat_of_ascii c in
  if ((65 <=? n) && (n <=? 90))%nat then ascii_of_nat (n + 32) else c.

Fixpoint lower (s : string) : string :=
  match s with
  | EmptyString => EmptyString
  | String c s' => String (lower_ascii c) (lower s')
  end.

(** A parser that knows the one decimal string of the examples. *)
Definition parse_known (s : string) : option float :=
  if String.eqb s "0.01" then Some f_0_01 else None.

(** A world with fixed answers: the profiles, the pairs per token address,
    and the answers of the two verification services. *)
Definition world_of (profiles : res pyval) (pairs : pyval -> res pyval)
    (volume_answer safety_answer : res pyval) : world :=
  {| str_lower := lower;
     float_of_str := parse_known;
     http_profiles := fun _ => profiles;
     http_token_info := fun _ _ addr => pairs addr;
     http_pocket_universe := fun _ _ _ _ => volume_answer;
     http_rugcheck := fun _ _ _ _ => safety_answer;
     utcnow := fun n => Z.of_nat n * hour_us;
     db_commit_error := fun _ _ => None;
     analysis_error := fun _ _ => None |}.

(** The thresholds of the end-to-end scenario: internal volume check on,
    no external provider configured. *)
Definition scenario_volume : volume_config :=
  {| use_internal_algorithm := true;
     fake_volume_threshold := Some (F64.of_Z 5);
     use_pocket_universe := false;
     pocket_universe := {| pu_api_url := None; pu_api_token := None |} |}.

Definition no_rugcheck : rugcheck_config :=
  {| required_status := None; rc_api_url := None; rc_api_token := None |}.

Definition good_rugcheck : rugcheck_config :=
  {| required_status := Some "Good";
     rc_api_url := Some "https://api.rugcheck.xyz/verify";
     rc_api_token := Some "secret" |}.

Definition scenario (vol : volume_config) (rug : rugcheck_config) : config :=
  {| filters :=
       {| min_liquidity_usd := Some (F64.of_Z 10000);
          min_price_usd := Some (F64.of_ratio 1 10000);
          max_price_usd := Some (F64.of_Z 10) |};
     coin_blacklist := ["0xBadCoinAddress1"; "0xBadCoinAddress2"];
     dev_blacklist := ["rug_dev1"; "rug_dev2"];
     volume_verification := vol;
     rugcheck := rug;
     telegram := {| bot_token := None; chat_id := None |} |}.

Definition candidate (addr : string) : pyval :=
  PDict [("tokenAddress", PStr addr); ("chainId", PStr "solana")].

Definition candidate_fields (addr : string) : list (string * pyval) :=
  [("tokenAddress", PStr addr); ("chainId", PStr "solana")].

(** A pair record with the given liquidity and hourly volume and the price
    ["0.01"]. *)
Definition pair_info (liq vol : Z) : pyval :=
  PDict [("liquidity", PDict [("usd", PInt liq)]);
         ("priceUsd", PStr "0.01");
         ("volume", PDict [("h1", PInt vol)])].

Definition empty_state : state :=
  {| trace := []; pending := []; store := [] |}.

(** Pairs for every token but [a], for which the list is empty. *)
Definition pairs_except (a : string) (addr : pyval) : res pyval :=
  if py_eq_str addr a then Ok (PList [])
  else Ok (PList [pair_info 20000 10]).

(** Pairs with liquidity 5000 for every token. *)
Definition thin_pairs (addr : pyval) : res pyval :=
  Ok (PList [pair_info 5000 10]).

Definition good_pairs (addr : pyval) : res pyval :=
  Ok (PList [pair_info 20000 10]).

(** A pair record whose liquidity entry is a string. *)
Definition malformed_pairs (addr : pyval) : res pyval :=
  Ok (PList [PDict [("liquidity", PStr "n/a"); ("priceUsd", PStr "0.01")]]).

(** A pair record whose three numbers are null, unparsable and missing. *)
Definition unparsable_fields : list (string * pyval) :=
  [("liquidity", PDict [("usd", PNone)]);
   ("priceUsd", PStr "n/a");
   ("volume", PDict [])].

Definition unparsable_pairs (addr : pyval) : res pyval :=
  Ok (PList [PDict unparsable_fields]).

(** A pair record whose [volume] entry is null. *)
Definition null_volume_fields : list (string * pyval) :=
  [("liquidity", PDict [("usd", PInt 20000)]);
   ("priceUsd", PStr "0.01");
   ("volume", PNone)].

Definition null_volume_pairs (addr : pyval) : res pyval :=
  Ok (PList [PDict null_volume_fields]).

(** The external provider switched on without its URL and token, and the
    internal check as given. *)
Definition unconfigured_provider (internal : bool) : volume_config :=
  {| use_internal_algorithm := internal;
     fake_volume_threshold := None;
     use_pocket_universe := true;
     pocket_universe := {| pu_api_url := None; pu_api_token := None |} |}.

(** No filter, no volume check, no rugcheck section. *)
Definition permissive : config :=
  {| filters :=
       {| min_liquidity_usd := None;
          min_price_usd := None;
          max_price_usd := None |};
     coin_blacklist := [];
     dev_blacklist := [];
     volume_verification :=
       {| use_internal_algorithm := false;
          fake_volume_threshold := None;
          use_pocket_universe := false;
          pocket_universe := {| pu_api_url := None; pu_api_token := None |} |};
     rugcheck := no_rugcheck;
     telegram := {| bot_token := None; chat_id := None |} |}.

(** The safety provider's verdict on a dangerous, bundled token. *)
Definition danger : res pyval :=
  Ok (PDict [("status", PStr "Danger"); ("bundled", PBool true)]).

End Examples.

(** * Properties *)

(** ** The trend analyzer *)

Section Analysis.

Lemma in_insert_key (k k' : string) (l : list string) :
  In k (insert_key k' l) <-> k = k' \/ In k l.
Proof.
  induction l as [|x l IH]; simpl.
  - intuition congruence.
  - destruct (String.compare k' x) eqn:E; simpl.
    + apply String.compare_eq_iff in E. subst x. intuition congruence.
    + intuition congruence.
    + rewrite IH. intuition congruence.
Qed.

Lemma in_group_keys (k : string) (df : list row) :
  In k (group_keys df) <-> exists r, In r df /\ key_of r = Some k.
Proof.
  induction df as [|r df IH]; simpl.
  - split; [tauto | intros (r & [] & _)].
  - destruct (key_of r) as [k'|] eqn:E.
    + rewrite in_insert_key, IH. split.
      * intros [-> | (r' & Hin & Hk)]; eauto.
      * intros (r' & [<- | Hin] & Hk); [left; congruence | eauto].
    + rewrite IH. split.
      * intros (r' & Hin & Hk); eauto.
      * intros (r' & [<- | Hin] & Hk); [congruence | eauto].
Qed.

Lemma in_group (r : row) (token : string) (df : list row) :
  In r (group token df) <-> In r df /\ key_of r = Some token.
Proof.
  unfold group. rewrite filter_In.
  destruct (key_of r) as [k|]; split; intros [Hin Hk]; split; auto.
  - apply String.eqb_eq in Hk. congruence.
  - injection Hk as ->. apply String.eqb_refl.
  - discriminate.
  - discriminate.
Qed.

(** A token with an hourly bucket is one of the group keys. *)
Lemma hourly_group_key (token : string) (df : list row) :
  hourly token df <> [] -> In token (group_keys df).
Proof.
  intros Hne. apply in_group_keys.
  destruct (group token df) as [|r g] eqn:E.
  - unfold hourly in Hne. rewrite E in Hne. now contradiction Hne.
  - exists r. apply in_group. rewrite E. now left.
Qed.

(** [dropna]: no bucket of the resampled series holds a NaN. *)
Lemma resample_last_not_nan (g : list row) (h : Z) (p : float) :
  In (h, p) (resample_last g) -> F64.is_nan p = false.
Proof.
  induction g as [|r g IH]; simpl; [tauto|].
  destruct (F64.is_nan (price_of r)) eqn:En; [exact IH|].
  destruct (resample_last g) as [|[h' p'] rest] eqn:Er.
  - intros [H | []]. now injection H as _ <-.
  - destruct (hour_of (timestamp r) =? h'); [exact IH|].
    intros [H | H]; [now injection H as _ <- | now apply IH].
Qed.

Lemma hourly_not_nan (token : string) (df : list row) (p : float) :
  In p (hourly token df) -> F64.is_nan p = false.
Proof.
  unfold hourly. rewrite in_map_iff. intros ([h p'] & <- & Hin).
  now apply resample_last_not_nan in Hin.
Qed.

Lemma token_signal_some (hs : list float) (c : float) :
  token_signal hs = Some c <->
  (2 <= List.length hs)%nat
  /\ c = percent_change (List.hd F64.zero hs) (List.last hs F64.zero)
  /\ F64.ltb (F64.of_Z 50) c = true.
Proof.
  unfold token_signal.
  destruct (List.length hs <? 2)%nat eqn:El.
  - apply Nat.ltb_lt in El. split; [discriminate | lia].
  - apply Nat.ltb_ge in El.
    destruct (F64.ltb (F64.of_Z 50)
                (percent_change (List.hd F64.zero hs) (List.last hs F64.zero)))
      eqn:Ec.
    + split.
      * intros H. injection H as <-. auto.
      * intros (_ & -> & _). reflexivity.
    + split; [discriminate|]. intros (_ & -> & H). congruence.
Qed.

(** The analyzer flags exactly the tokens whose hourly series gives a
    signal. *)
Lemma analyze_token_trends_in (snaps : list row) (token : string) (c : float) :
  In (token, c) (analyze_token_trends snaps) <->
  token_signal (hourly token (sort_values snaps)) = Some c.
Proof.
  unfold analyze_token_trends.
  destruct snaps as [|r0 snaps'].
  - simpl. split; [tauto | discriminate].
  - set (df := sort_values (r0 :: snaps')).
    rewrite in_flat_map. split.
    + intros (k & _ & Hin).
      destruct (token_signal (hourly k df)) as [c'|] eqn:E; [|destruct Hin].
      destruct Hin as [H | []]. injection H as -> ->. exact E.
    + intros E. exists token. split.
      * apply hourly_group_key. intros Hnil. rewrite Hnil in E. discriminate.
      * rewrite E. now left.
Qed.

End Analysis.

(** [100.0] and [50.0] in binary64. *)
Lemma of_Z_100 : F64.of_Z 100 = S754_finite false 7036874417766400 (-46).
Proof. vm_compute. reflexivity. Qed.

Lemma of_Z_50 : F64.of_Z 50 = S754_finite false 7036874417766400 (-47).
Proof. vm_compute. reflexivity. Qed.

(** With a zero in the first bucket the quotient is an infinity or NaN, and
    the comparison with 50 holds exactly for plus infinity. *)
Lemma percent_change_zero_first (s : bool) (l : float) :
  F64.is_nan l = false ->
  F64.ltb (F64.of_Z 50) (percent_change (S754_zero s) l)
  = negb (F64.is_zero l) && Bool.eqb (F64.sign l) s.
Proof.
  unfold percent_change. rewrite of_Z_100, of_Z_50.
  intros Hn.
  destruct l as [[] | [] | | [] m e], s; simpl in *;
    reflexivity || discriminate.
Qed.

Lemma percent_change_zero_first_value (s : bool) (l : float) :
  F64.ltb (F64.of_Z 50) (percent_change (S754_zero s) l) = true ->
  percent_change (S754_zero s) l = F64.inf.
Proof.
  unfold percent_change. rewrite of_Z_100, of_Z_50.
  destruct l as [[] | [] | | [] m e], s; simpl;
    reflexivity || discriminate.
Qed.

Lemma last_in {A : Type} (l : list A) (d : A) :
  l <> [] -> In (List.last l d) l.
Proof.
  induction l as [|x l IH]; [congruence|].
  intros _. destruct l as [|y l'].
  - now left.
  - right. apply IH. discriminate.
Qed.

(** C10: on an empty snapshot store the trend analyzer returns the empty
    list of signals. *)
Theorem analyze_token_trends_empty : analyze_token_trends [] = [].
Proof. reflexivity. Qed.

(** C4, as amended: the analyzer flags a token exactly when its hourly
    series has at least two buckets and [(last - first) / first * 100],
    computed in binary64, is above 50. The series [1.0, 1.6] is flagged with
    the change [60.00000000000001] (not [60.0]: [1.6 - 1.0] is not the float
    [0.6]), the series [1.0, 1.4] is not flagged, and a series of one bucket
    is never flagged. *)
Theorem pump_signal_exactly_above_threshold :
  (forall (snaps : list row) (token : string) (change : float),
      In (token, change) (analyze_token_trends snaps) <->
      let hs := hourly token (sort_values snaps) in
      (2 <= List.length hs)%nat
      /\ change = percent_change (List.hd F64.zero hs) (List.last hs F64.zero)
      /\ F64.ltb (F64.of_Z 50) change = true)
  /\ hourly "0xA" (sort_values (Examples.two_hours Examples.f_1_0 Examples.f_1_6))
     = [Examples.f_1_0; Examples.f_1_6]
  /\ analyze_token_trends (Examples.two_hours Examples.f_1_0 Examples.f_1_6)
     = [("0xA", Examples.f_60_next)]
  /\ hourly "0xA" (sort_values (Examples.two_hours Examples.f_1_0 Examples.f_1_4))
     = [Examples.f_1_0; Examples.f_1_4]
  /\ analyze_token_trends (Examples.two_hours Examples.f_1_0 Examples.f_1_4) = []
  /\ (forall p : float, token_signal [p] = None)
  /\ (forall first last : float,
        analyze_token_trends (Examples.one_hour first last) = []).
Proof.
  split; [|split; [|split; [|split; [|split; [|split]]]]].
  - intros snaps token change. cbv zeta.
    rewrite analyze_token_trends_in. apply token_signal_some.
  - vm_compute. reflexivity.
  - vm_compute. reflexivity.
  - vm_compute. reflexivity.
  - vm_compute. reflexivity.
  - intros p. reflexivity.
  - intros first last.
    unfold analyze_token_trends, Examples.one_hour.
    cbn -[F64.is_nan token_signal].
    destruct (F64.is_nan last), (F64.is_nan first); reflexivity.
Qed.

(** C4, as the claim has it, fails: on the series [1.0, 1.6] the signal's
    change is not equal to [60.0]. *)
Lemma percent_change_1_6_is_not_60 :
  hourly "0xA" (sort_values (Examples.two_hours Examples.f_1_0 Examples.f_1_6))
  = [Examples.f_1_0; Examples.f_1_6]
  /\ ~ (exists c : float,
          In ("0xA", c)
             (analyze_token_trends (Examples.two_hours Examples.f_1_0 Examples.f_1_6))
          /\ F64.eqb c (F64.of_Z 60) = true).
Proof.
  split; [vm_compute; reflexivity|].
  intros (c & Hin & Heq).
  assert (E : analyze_token_trends (Examples.two_hours Examples.f_1_0 Examples.f_1_6)
              = [("0xA", Examples.f_60_next)]) by (vm_compute; reflexivity).
  rewrite E in Hin. destruct Hin as [H | []].
  injection H as <-. vm_compute in Heq. discriminate.
Qed.

(** C3, as amended: when the first hourly bucket of a token holds a zero,
    the analyzer still returns (the division is the binary64 one, which
    yields an infinity or NaN and no fault), and it flags the token exactly
    when the last bucket's price is not zero and has the sign of that zero,
    with the change plus infinity; otherwise it gives no signal for the
    token. *)
Theorem zero_first_bucket_signal
    (snaps : list row) (token : string) (s : bool) (change : float) :
  let hs := hourly token (sort_values snaps) in
  (2 <= List.length hs)%nat ->
  List.hd F64.zero hs = S754_zero s ->
  (In (token, change) (analyze_token_trends snaps) <->
   change = F64.inf
   /\ F64.is_zero (List.last hs F64.zero) = false
   /\ F64.sign (List.last hs F64.zero) = s).
Proof.
  intros hs Hlen Hhd.
  rewrite analyze_token_trends_in, token_signal_some. fold hs. rewrite Hhd.
  assert (Hnan : F64.is_nan (List.last hs F64.zero) = false).
  { apply (hourly_not_nan token (sort_values snaps)). fold hs.
    apply last_in. intros E. rewrite E in Hlen. simpl in Hlen. lia. }
  pose proof (percent_change_zero_first s _ Hnan) as Hlt.
  pose proof (percent_change_zero_first_value s (List.last hs F64.zero)) as Hval.
  split.
  - intros (_ & -> & Hc). rewrite Hc in Hval. rewrite Hlt in Hc.
    apply andb_true_iff in Hc as [Hz Hs].
    apply negb_true_iff in Hz. apply Bool.eqb_prop in Hs. auto.
  - intros (-> & Hz & Hs).
    assert (Hc : F64.ltb (F64.of_Z 50)
                   (percent_change (S754_zero s) (List.last hs F64.zero)) = true).
    { rewrite Hlt, Hz, Hs. simpl. now destruct s. }
    rewrite (Hval Hc). split; [exact Hlen|]. split; [reflexivity|].
    rewrite <- (Hval Hc). exact Hc.
Qed.

Lemma zero_first_bucket_signal_witness :
  In ("0xA", F64.inf)
     (analyze_token_trends (Examples.two_hours F64.zero Examples.f_1_4)).
Proof.
  apply (zero_first_bucket_signal
           (Examples.two_hours F64.zero Examples.f_1_4) "0xA" false F64.inf).
  - vm_compute. lia.
  - vm_compute. reflexivity.
  - vm_compute. auto.
Defined.

(** C3, as the claim has it, fails: a token whose first hourly bucket is
    [0.0] and whose last is [1.4] is flagged. *)
Lemma zero_first_bucket_is_flagged :
  List.hd F64.zero
    (hourly "0xA" (sort_values (Examples.two_hours F64.zero Examples.f_1_4)))
  = F64.zero
  /\ analyze_token_trends (Examples.two_hours F64.zero Examples.f_1_4)
     = [("0xA", F64.inf)].
Proof. split; vm_compute; reflexivity. Qed.

(** ** The verification helpers *)

(** C6: with the internal algorithm enabled and the candidate's hourly
    volume strictly below the threshold, [verify_volume] returns [False],
    whatever the world answers; the external provider is not even called. *)
Theorem verify_volume_internal_rejects
    (W : world) (token_data : pyval) (cfg : config) (st : state) (v : float) :
  or_zero (nested_float W token_data "volume" "h1") = Ok v ->
  use_internal_algorithm (volume_verification cfg) = true ->
  F64.ltb v (get_or (fake_volume_threshold (volume_verification cfg)) (F64.of_Z 5))
  = true ->
  verify_volume W token_data cfg st
  = (Ok false, record_event (EvVerifyVolume token_data) st).
Proof.
  intros Hv Hint Hlt.
  unfold verify_volume, bind, emit, lift. rewrite Hv, Hint, Hlt. reflexivity.
Qed.

Lemma verify_volume_internal_rejects_witness :
  verify_volume
    (Examples.world_of (Raise TransportError) (fun _ => Raise TransportError)
       (Ok (PDict [("volumeAuthentic", PBool true)])) (Raise TransportError))
    (Examples.pair_info 20000 2)
    (Examples.scenario Examples.scenario_volume Examples.no_rugcheck)
    Examples.empty_state
  = (Ok false,
     record_event (EvVerifyVolume (Examples.pair_info 20000 2)) Examples.empty_state).
Proof.
  apply (verify_volume_internal_rejects _ _ _ _ (F64.of_Z 2)).
  - vm_compute. reflexivity.
  - reflexivity.
  - vm_compute. reflexivity.
Defined.


(** C7: on a candidate record [verify_rugcheck] always returns a boolean,
    never an exception. It returns [False] without a call when the provider
    URL, the provider token or the token address is missing, and [False]
    when the call raises; when the call succeeds it returns [True] if and
    only if the returned status equals the required status and the returned
    bundled flag is false. *)
Theorem verify_rugcheck_fail_closed
    (W : world) (fields : list (string * pyval)) (cfg : config) (st : state) :
  let token_data := PDict fields in
  let conf := rugcheck cfg in
  let required := get_or (required_status conf) "Good" in
  let url := get_or (rc_api_url conf) "" in
  let token := get_or (rc_api_token conf) "" in
  let addr := match assoc "tokenAddress" fields with Some a => a | None => PNone end in
  let st1 := record_event (EvVerifyRugcheck token_data) st in
  let present :=
    opt_truthy (rc_api_url conf) && opt_truthy (rc_api_token conf) && py_truthy addr in
  exists (b : bool) (st' : state),
    verify_rugcheck W token_data cfg st = (Ok b, st')
    /\ (present = false -> b = false /\ st' = st1)
    /\ (present = true ->
        forall e : exn,
          http_rugcheck W (trace st1) url token addr = Raise e -> b = false)
    /\ (present = true ->
        forall result : pyval,
          http_rugcheck W (trace st1) url token addr = Ok result ->
          (b = true <->
           exists status bundled : pyval,
             py_get result "status" (PStr "") = Ok status
             /\ py_get result "bundled" (PBool false) = Ok bundled
             /\ py_eq_str status required = true
             /\ py_truthy bundled = false)).
Proof.
  intros token_data conf required url token addr st1 present.
  unfold verify_rugcheck, bind, emit, lift, try_except, call, ret.
  change (py_get token_data "tokenAddress" PNone) with (Ok addr).
  fold conf required url token st1. cbv beta iota.
  replace (negb (opt_truthy (rc_api_url conf))
           || negb (opt_truthy (rc_api_token conf)) || negb (py_truthy addr))
    with (negb present)
    by (unfold present; now rewrite !negb_andb).
  destruct present eqn:Hp; cbn [negb]; cbv beta iota.
  - destruct (http_rugcheck W (trace st1) url token addr) as [result | e] eqn:Hcall.
    + destruct (py_get result "status" (PStr "")) as [status | e1] eqn:Hs;
        [destruct (py_get result "bundled" (PBool false)) as [bundled | e2] eqn:Hb;
         [destruct (py_eq_str status required) eqn:Heq; cbn [negb];
          [destruct (py_truthy bundled) eqn:Ht|]|]|].
      all: eexists; eexists; split; [reflexivity|].
      all: split; [discriminate|].
      all: split; [intros _ e' He; discriminate He|].
      all: intros _ r Hr; injection Hr as <-.
      all: split;
        [ try discriminate; intros _; exists status, bundled; auto
        | try reflexivity;
          intros (s' & b' & Hs' & Hb' & Heq' & Ht'); congruence ].
    + exists false, (record_event (EvRugcheck url token addr) st1).
      split; [reflexivity|]. split; [discriminate|].
      split; [reflexivity|]. intros _ r Hr. discriminate Hr.
  - exists false, st1.
    split; [reflexivity|]. split; [auto|]. split; discriminate.
Qed.

(** ** The admission pipeline *)

Lemma record_event_nil (st : state) :
  {| trace := trace st ++ []; pending := pending st; store := store st |} = st.
Proof. destruct st. simpl. now rewrite app_nil_r. Qed.

Lemma in_strs_of_member (a : string) (l : list string) :
  In a l -> py_in_strs (PStr a) l = true.
Proof.
  intros Hin. unfold py_in_strs. apply existsb_exists.
  exists a. split; [exact Hin | apply String.eqb_refl].
Qed.

Ltac run_steps :=
  unfold bind, lift, call, emit, ret; cbn [py_get]; cbv beta iota.

(** C5: a candidate whose token address is in the coin blacklist is skipped
    with no event at all, and a candidate whose liquidity is below
    [min_liquidity_usd] ends in a skip (or in an exception raised before the
    liquidity test) with no verification event and no snapshot added: the
    only call that may have happened is the fetch of the pair list. *)
Theorem blacklist_and_liquidity_short_circuit (W : world) :
  (forall (fields : list (string * pyval)) (cfg : config) (st : state) (a : string),
      assoc "tokenAddress" fields = Some (PStr a) ->
      In a (coin_blacklist cfg) ->
      process_candidate W (PDict fields) cfg st = (Ok SkipCoinBlacklist, st))
  /\ (forall (fields : list (string * pyval)) (cfg : config) (st : state)
             (info : pyval) (rest : list pyval) (liq : float),
         http_token_info W (trace st) (field fields "chainId")
           (field fields "tokenAddress") = Ok (PList (info :: rest)) ->
         or_zero (nested_float W info "liquidity" "usd") = Ok liq ->
         below_liquidity_floor cfg liq = true ->
         exists (r : res outcome) (new : list event),
           process_candidate W (PDict fields) cfg st
           = (r, {| trace := trace st ++ new;
                    pending := pending st;
                    store := store st |})
           /\ no_verification new = true
           /\ (r = Ok SkipCoinBlacklist \/ r = Ok SkipDevBlacklist
               \/ r = Ok SkipLiquidity \/ exists e, r = Raise e)
           /\ (py_in_strs (field fields "tokenAddress") (coin_blacklist cfg) = false ->
               dev_blacklisted W (field fields "developer") (dev_blacklist cfg)
               = Ok false ->
               (exists p, or_zero (flat_float W info "priceUsd") = Ok p) ->
               r = Ok SkipLiquidity
               /\ new = [EvGetTokenInfo (field fields "chainId")
                           (field fields "tokenAddress")])).
Proof.
  split.
  - intros fields cfg st a Ha Hin.
    unfold process_candidate. run_steps. rewrite Ha.
    now rewrite (in_strs_of_member a _ Hin).
  - intros fields cfg st info rest liq Hfetch Hliq Hlow.
    unfold process_candidate. run_steps.
    fold (field fields "tokenAddress") (field fields "developer")
      (field fields "chainId").
    destruct (py_in_strs (field fields "tokenAddress") (coin_blacklist cfg)) eqn:Hbl.
    { exists (Ok SkipCoinBlacklist), []. rewrite record_event_nil.
      split; [reflexivity|]. split; [reflexivity|]. split; [auto|].
      intros H. discriminate H. }
    destruct (dev_blacklisted W (field fields "developer") (dev_blacklist cfg))
      as [[|] | e] eqn:Hdev.
    { exists (Ok SkipDevBlacklist), []. rewrite record_event_nil.
      split; [reflexivity|]. split; [reflexivity|]. split; [auto|].
      intros _ H. discriminate H. }
    2:{ exists (Raise e), []. rewrite record_event_nil.
        split; [reflexivity|]. split; [reflexivity|]. split; [eauto 6|].
        intros _ H. discriminate H. }
    unfold record_event. rewrite Hfetch. cbn [py_index0]. rewrite Hliq.
    destruct (or_zero (flat_float W info "priceUsd")) as [p | e] eqn:Hp.
    + unfold below_liquidity_floor in Hlow. rewrite Hlow.
      exists (Ok SkipLiquidity),
        [EvGetTokenInfo (field fields "chainId") (field fields "tokenAddress")].
      split; [reflexivity|]. split; [reflexivity|]. split; auto.
    + exists (Raise e),
        [EvGetTokenInfo (field fields "chainId") (field fields "tokenAddress")].
      split; [reflexivity|]. split; [reflexivity|]. split; [eauto 6|].
      intros _ _ (p & Hp'). discriminate Hp'.
Qed.

Lemma blacklist_and_liquidity_short_circuit_witness :
  let w := Examples.world_of (Raise TransportError) Examples.thin_pairs
             (Raise TransportError) (Raise TransportError) in
  let cfg := Examples.scenario Examples.scenario_volume Examples.good_rugcheck in
  process_candidate w (Examples.candidate "0xBadCoinAddress1") cfg Examples.empty_state
  = (Ok SkipCoinBlacklist, Examples.empty_state)
  /\ exists (r : res outcome) (new : list event),
      process_candidate w (Examples.candidate "0xA") cfg Examples.empty_state
      = (r, {| trace := new; pending := []; store := [] |})
      /\ no_verification new = true
      /\ r = Ok SkipLiquidity.
Proof.
  intros w cfg.
  destruct (blacklist_and_liquidity_short_circuit w) as [Hblack Hliq].
  split.
  - apply (Hblack (Examples.candidate_fields "0xBadCoinAddress1") cfg
             Examples.empty_state "0xBadCoinAddress1").
    + reflexivity.
    + simpl. auto.
  - destruct (Hliq (Examples.candidate_fields "0xA") cfg Examples.empty_state
                (Examples.pair_info 5000 10) [] (F64.of_Z 5000))
      as (r & new & Hrun & Hnone & _ & Hskip).
    + reflexivity.
    + vm_compute. reflexivity.
    + vm_compute. reflexivity.
    + exists r, new. split; [exact Hrun|]. split; [exact Hnone|].
      apply Hskip.
      * reflexivity.
      * reflexivity.
      * exists Examples.f_0_01. vm_compute. reflexivity.
Defined.

(** *** What a cycle leaves untouched *)

Section KeepsStore.

Context {A B : Type}.

Lemma keeps_store_ret (a : A) : keeps_store (ret a).
Proof. intros st. reflexivity. Qed.

Lemma keeps_store_lift (r : res A) : keeps_store (lift r).
Proof. intros st. reflexivity. Qed.

Lemma keeps_store_call (ask : list event -> res A) (e : event) :
  keeps_store (call ask e).
Proof. intros st. reflexivity. Qed.

Lemma keeps_store_bind (c : M A) (k : A -> M B) :
  keeps_store c -> (forall a, keeps_store (k a)) -> keeps_store (bind c k).
Proof.
  intros Hc Hk st. unfold bind. specialize (Hc st).
  destruct (c st) as [[a | e] st']; simpl in *.
  - now rewrite Hk.
  - exact Hc.
Qed.

Lemma keeps_store_try (c : M A) (h : exn -> M A) :
  keeps_store c -> (forall e, keeps_store (h e)) -> keeps_store (try_except c h).
Proof.
  intros Hc Hh st. unfold try_except. specialize (Hc st).
  destruct (c st) as [[a | e] st']; simpl in *.
  - exact Hc.
  - now rewrite Hh.
Qed.

End KeepsStore.

Lemma keeps_store_emit (e : event) : keeps_store (emit e).
Proof. intros st. reflexivity. Qed.

Lemma keeps_store_add (s : TokenSnapshot) : keeps_store (session_add s).
Proof. intros st. reflexivity. Qed.

Ltac keeps_store_steps known :=
  repeat first
    [ known
    | apply keeps_store_ret
    | apply keeps_store_lift
    | apply keeps_store_call
    | apply keeps_store_emit
    | apply keeps_store_add
    | apply keeps_store_bind; [|intros ?]
    | apply keeps_store_try; [|intros ?]
    | progress cbv zeta
    | match goal with
      | |- keeps_store (if ?b then _ else _) => destruct b
      end ].

Lemma verify_volume_keeps_store (W : world) (token_data : pyval) (cfg : config) :
  keeps_store (verify_volume W token_data cfg).
Proof. unfold verify_volume. keeps_store_steps fail. Qed.

Lemma verify_rugcheck_keeps_store (W : world) (token_data : pyval) (cfg : config) :
  keeps_store (verify_rugcheck W token_data cfg).
Proof. unfold verify_rugcheck. keeps_store_steps fail. Qed.

Lemma process_candidate_keeps_store (W : world) (token_data : pyval) (cfg : config) :
  keeps_store (process_candidate W token_data cfg).
Proof.
  unfold process_candidate.
  keeps_store_steps
    ltac:(first [ apply verify_volume_keeps_store
                | apply verify_rugcheck_keeps_store ]).
Qed.

Lemma for_each_keeps_store (l : list pyval) (body : pyval -> M outcome) :
  (forall x, keeps_store (body x)) -> keeps_store (for_each l body).
Proof.
  intros Hbody. induction l as [|x l IH]; simpl; keeps_store_steps ltac:(assumption || apply Hbody).
Qed.

(** *** The cycle around a failing candidate *)

Lemma for_each_raises (body : pyval -> M outcome) (before after : list pyval)
    (x : pyval) (st st2 st3 : state) (outs : list outcome) (e : exn) :
  for_each before body st = (Ok outs, st2) ->
  body x st2 = (Raise e, st3) ->
  for_each (before ++ x :: after) body st = (Raise e, st3).
Proof.
  revert st outs. induction before as [|y before IH]; intros st outs Hbefore Hx.
  - simpl in Hbefore. unfold ret in Hbefore. injection Hbefore as <- <-.
    simpl. unfold bind. now rewrite Hx.
  - simpl in *. unfold bind in *.
    destruct (body y st) as [[o | e'] st'] eqn:Hy; [|discriminate].
    destruct (for_each before body st') as [[os | e'] st''] eqn:Hrest;
      [|discriminate].
    unfold ret in Hbefore. injection Hbefore as <- <-.
    now rewrite (IH st' os Hrest Hx).
Qed.

(** An empty pair list makes the body of the loop raise [IndexError], right
    after the fetch. *)
Lemma process_candidate_empty_pairs
    (W : world) (fields : list (string * pyval)) (cfg : config) (st : state) :
  py_in_strs (field fields "tokenAddress") (coin_blacklist cfg) = false ->
  dev_blacklisted W (field fields "developer") (dev_blacklist cfg) = Ok false ->
  http_token_info W (trace st) (field fields "chainId")
    (field fields "tokenAddress") = Ok (PList []) ->
  process_candidate W (PDict fields) cfg st
  = (Raise IndexError,
     record_event
       (EvGetTokenInfo (field fields "chainId") (field fields "tokenAddress")) st).
Proof.
  intros Hbl Hdev Hfetch.
  unfold process_candidate. run_steps.
  fold (field fields "tokenAddress") (field fields "developer")
    (field fields "chainId").
  rewrite Hbl, Hdev, Hfetch. reflexivity.
Qed.

(** C2, as amended: when the fetch of the pair list returns an empty list
    for a candidate, the [IndexError] is caught only by the handler of the
    cycle: the candidates after it are not processed, the snapshots added
    earlier in the cycle are rolled back, nothing is committed, and the
    iteration ends normally with the sleep, so that the loop goes on. *)
Theorem empty_pair_list_aborts_cycle
    (W : world) (cfg : config) (st st2 : state) (profiles : pyval)
    (before after : list pyval) (fields : list (string * pyval))
    (outs : list outcome) :
  http_profiles W (trace st) = Ok profiles ->
  token_list_of profiles = Ok (before ++ PDict fields :: after)%list ->
  for_each before (fun td => process_candidate W td cfg)
    (record_event EvGetProfiles st) = (Ok outs, st2) ->
  py_in_strs (field fields "tokenAddress") (coin_blacklist cfg) = false ->
  dev_blacklisted W (field fields "developer") (dev_blacklist cfg) = Ok false ->
  http_token_info W (trace st2) (field fields "chainId")
    (field fields "tokenAddress") = Ok (PList []) ->
  run_cycle W cfg st
  = (Ok (Raise IndexError),
     {| trace :=
          trace st2
          ++ [EvGetTokenInfo (field fields "chainId") (field fields "tokenAddress");
              EvRollback; EvSleep 600];
        pending := [];
        store := store st |}).
Proof.
  intros Hprof Hlist Hbefore Hbl Hdev Hfetch.
  pose proof (process_candidate_empty_pairs W fields cfg st2 Hbl Hdev Hfetch) as Hx.
  pose proof (for_each_raises (fun td => process_candidate W td cfg)
                before after (PDict fields) _ _ _ outs IndexError Hbefore Hx) as Hloop.
  assert (Hstore : store st2 = store st).
  { pose proof (for_each_keeps_store before (fun td => process_candidate W td cfg)
                  (fun x => process_candidate_keeps_store W x cfg)
                  (record_event EvGetProfiles st)) as Hk.
    rewrite Hbefore in Hk. exact Hk. }
  unfold run_cycle, cycle_body, try_except, bind, call, lift.
  rewrite Hprof, Hlist, Hloop.
  unfold session_rollback, emit, ret, record_event. cbn.
  rewrite Hstore. repeat rewrite <- app_assoc. reflexivity.
Qed.

Lemma empty_pair_list_aborts_cycle_witness :
  run_cycle
    (Examples.world_of
       (Ok (PList [Examples.candidate "0xA"; Examples.candidate "0xC"]))
       (Examples.pairs_except "0xA") (Raise TransportError) (Raise TransportError))
    (Examples.scenario Examples.scenario_volume Examples.no_rugcheck)
    Examples.empty_state
  = (Ok (Raise IndexError),
     {| trace := [EvGetProfiles; EvGetTokenInfo (PStr "solana") (PStr "0xA");
                  EvRollback; EvSleep 600];
        pending := [];
        store := [] |}).
Proof.
  apply (empty_pair_list_aborts_cycle
           (Examples.world_of
              (Ok (PList [Examples.candidate "0xA"; Examples.candidate "0xC"]))
              (Examples.pairs_except "0xA") (Raise TransportError)
              (Raise TransportError))
           (Examples.scenario Examples.scenario_volume Examples.no_rugcheck)
           Examples.empty_state
           (record_event EvGetProfiles Examples.empty_state)
           (PList [Examples.candidate "0xA"; Examples.candidate "0xC"])
           [] [Examples.candidate "0xC"] (Examples.candidate_fields "0xA") []).
  - reflexivity.
  - reflexivity.
  - reflexivity.
  - reflexivity.
  - reflexivity.
  - reflexivity.
Defined.

(** C2, as the claim has it, fails: with candidates 0xB, 0xA, 0xC and an
    empty pair list for 0xA, the cycle ends in [IndexError]; 0xC is never
    fetched, and the snapshot added for 0xB is not committed. *)
Lemma empty_pair_list_stops_the_cycle :
  let w := Examples.world_of
             (Ok (PList [Examples.candidate "0xB"; Examples.candidate "0xA";
                         Examples.candidate "0xC"]))
             (Examples.pairs_except "0xA") (Raise TransportError)
             (Raise TransportError) in
  let cfg := Examples.scenario Examples.scenario_volume Examples.no_rugcheck in
  let done := run_cycle w cfg Examples.empty_state in
  fst done = Ok (Raise IndexError)
  /\ In (EvGetTokenInfo (PStr "solana") (PStr "0xA")) (trace (snd done))
  /\ ~ In (EvGetTokenInfo (PStr "solana") (PStr "0xC")) (trace (snd done))
  /\ (exists s, In (EvAdd s) (trace (snd done)) /\ token_address s = PStr "0xB")
  /\ ~ In EvCommit (trace (snd done))
  /\ store (snd done) = [].
Proof.
  intros w cfg done.
  assert (E : done
              = (Ok (Raise IndexError),
                 {| trace :=
                      [EvGetProfiles;
                       EvGetTokenInfo (PStr "solana") (PStr "0xB");
                       EvVerifyVolume (Examples.pair_info 20000 10);
                       EvVerifyRugcheck (Examples.candidate "0xB");
                       EvAdd {| token_address := PStr "0xB";
                                chain_id := PStr "solana";
                                icon := PNone;
                                description := PNone;
                                links := PNone;
                                price_usd := Examples.f_0_01;
                                liquidity := F64.of_Z 20000;
                                volume_usd := F64.of_Z 10;
                                developer := PNone |};
                       EvGetTokenInfo (PStr "solana") (PStr "0xA");
                       EvRollback; EvSleep 600];
                    pending := [];
                    store := [] |}))
    by (vm_compute; reflexivity).
  rewrite E. cbn [fst snd trace store].
  split; [reflexivity|].
  split; [simpl; tauto|].
  split; [simpl; intuition discriminate|].
  split; [eexists; split; [right; right; right; right; left; reflexivity | reflexivity]|].
  split; [simpl; intuition discriminate | reflexivity].
Qed.

(** C1: the code persists a snapshot for a candidate that
    [verify_rugcheck] refused. With a provider that answers status "Danger"
    and bundled, [verify_rugcheck] returns [False], and the cycle still adds
    and commits the snapshot of the candidate. *)
Theorem rugcheck_refusal_is_still_persisted :
  let w := Examples.world_of (Ok (PList [Examples.candidate "0xA"]))
             Examples.good_pairs (Raise TransportError) Examples.danger in
  let cfg := Examples.scenario Examples.scenario_volume Examples.good_rugcheck in
  fst (verify_rugcheck w (Examples.candidate "0xA") cfg Examples.empty_state)
  = Ok false
  /\ fst (run_cycle w cfg Examples.empty_state) = Ok (Ok [Added false])
  /\ map (fun r => token_address (snapshot r))
         (store (snd (run_cycle w cfg Examples.empty_state)))
     = [PStr "0xA"].
Proof. intros w cfg. split; [|split]; vm_compute; reflexivity. Qed.

(** *** Fields that do not parse *)

Lemma parsed_nested (W : world) (d : list (string * pyval)) (outer inner : string) :
  container_ok d outer = true ->
  or_zero (nested_float W (PDict d) outer inner)
  = parsed W (nested_value d outer inner).
Proof.
  unfold container_ok, nested_float, nested_value, parsed, py_get.
  destruct (assoc outer d) as [[| | | | | |o]|]; try discriminate; intros _.
  - destruct (assoc inner o); reflexivity.
  - reflexivity.
Qed.

Lemma parsed_flat (W : world) (d : list (string * pyval)) (key : string) :
  or_zero (flat_float W (PDict d) key) = parsed W (assoc key d).
Proof.
  unfold flat_float, parsed, py_get. destruct (assoc key d); reflexivity.
Qed.

Lemma parsed_missing_or_non_numeric (W : world) (v : option pyval) :
  missing_or_non_numeric W v = true -> parsed W v = Ok F64.zero.
Proof.
  unfold parsed. destruct v as [x|]; simpl.
  - destruct x; simpl; try discriminate; try reflexivity.
    destruct (float_of_str W s); [discriminate | reflexivity].
  - reflexivity.
Qed.

(** On a pair record whose volume parses, [verify_volume] returns a
    boolean and adds no snapshot. *)
Lemma verify_volume_returns
    (W : world) (d : list (string * pyval)) (cfg : config) (st : state) (v : float) :
  or_zero (nested_float W (PDict d) "volume" "h1") = Ok v ->
  exists (ok : bool) (st' : state),
    verify_volume W (PDict d) cfg st = (Ok ok, st')
    /\ pending st' = pending st.
Proof.
  intros Hv. unfold verify_volume, bind, emit, lift. rewrite Hv. cbv zeta.
  destruct (use_internal_algorithm (volume_verification cfg)
            && F64.ltb v (get_or (fake_volume_threshold (volume_verification cfg))
                            (F64.of_Z 5)));
    [now eexists; eexists|].
  destruct (use_pocket_universe (volume_verification cfg)); [|now eexists; eexists].
  destruct (opt_truthy (pu_api_url (pocket_universe (volume_verification cfg)))
            && opt_truthy (pu_api_token (pocket_universe (volume_verification cfg))));
    [|now eexists; eexists].
  unfold try_except, bind, call, lift, ret. cbn [py_get].
  match goal with
  | |- context [http_pocket_universe W ?tr ?u ?t ?a] =>
      destruct (http_pocket_universe W tr u t a) as [result | e]
  end; [|now eexists; eexists].
  destruct (py_get result "volumeAuthentic" (PBool false)) as [authentic | e];
    [|now eexists; eexists].
  destruct (negb (py_truthy authentic)); now eexists; eexists.
Qed.

(** On a candidate record [verify_rugcheck] returns a boolean and adds no
    snapshot. *)
Lemma verify_rugcheck_returns
    (W : world) (fields : list (string * pyval)) (cfg : config) (st : state) :
  exists (ok : bool) (st' : state),
    verify_rugcheck W (PDict fields) cfg st = (Ok ok, st')
    /\ pending st' = pending st.
Proof.
  unfold verify_rugcheck, bind, emit, lift. cbn [py_get]. cbv zeta.
  match goal with
  | |- context [if ?c then _ else _] => destruct c
  end; [now eexists; eexists|].
  unfold try_except, bind, call, lift, ret.
  match goal with
  | |- context [http_rugcheck W ?tr ?u ?t ?a] =>
      destruct (http_rugcheck W tr u t a) as [result | e]
  end; [|now eexists; eexists].
  destruct (py_get result "status" (PStr "")) as [status | e];
    [|now eexists; eexists].
  destruct (py_get result "bundled" (PBool false)) as [bundled | e];
    [|now eexists; eexists].
  destruct (negb (py_eq_str status (get_or (required_status (rugcheck cfg)) "Good")));
    [now eexists; eexists|].
  destruct (py_truthy bundled); now eexists; eexists.
Qed.

Lemma parsed_when_not_oversized (W : world) (v : option pyval) :
  oversized v = false -> exists f : float, parsed W v = Ok f.
Proof.
  unfold oversized, parsed. destruct v as [x|]; [|now eexists].
  destruct x; cbn [get_or py_float or_zero]; intros Hv; try (now eexists).
  - rewrite Hv. now eexists.
  - destruct (float_of_str W s); now eexists.
Qed.

(** C8, as amended: a liquidity, price or volume value that is missing or
    not a number is read as zero, provided the [liquidity] and [volume]
    entries of the pair record are absent or objects and none of the three
    values is an integer beyond the float range. The candidate is then
    carried through the remaining stages with the values read and its
    processing ends without an exception: in the liquidity skip, the price
    skip or the volume skip, each exactly when that stage rejects, and
    otherwise in the added snapshot, which holds the values read. *)
Theorem unparsable_numbers_count_as_zero (W : world) :
  (forall v : option pyval,
      missing_or_non_numeric W v = true -> parsed W v = Ok F64.zero)
  /\ (forall (fields info : list (string * pyval)) (rest : list pyval)
             (cfg : config) (st : state),
         py_in_strs (field fields "tokenAddress") (coin_blacklist cfg) = false ->
         dev_blacklisted W (field fields "developer") (dev_blacklist cfg) = Ok false ->
         http_token_info W (trace st) (field fields "chainId")
           (field fields "tokenAddress") = Ok (PList (PDict info :: rest)) ->
         container_ok info "liquidity" = true ->
         container_ok info "volume" = true ->
         oversized (nested_value info "liquidity" "usd") = false ->
         oversized (assoc "priceUsd" info) = false ->
         oversized (nested_value info "volume" "h1") = false ->
         let st1 :=
           record_event
             (EvGetTokenInfo (field fields "chainId") (field fields "tokenAddress"))
             st in
         exists (liq price vol : float) (o : outcome) (st' : state),
           parsed W (nested_value info "liquidity" "usd") = Ok liq
           /\ parsed W (assoc "priceUsd" info) = Ok price
           /\ parsed W (nested_value info "volume" "h1") = Ok vol
           /\ (missing_or_non_numeric W (nested_value info "liquidity" "usd") = true ->
               liq = F64.zero)
           /\ (missing_or_non_numeric W (assoc "priceUsd" info) = true ->
               price = F64.zero)
           /\ (missing_or_non_numeric W (nested_value info "volume" "h1") = true ->
               vol = F64.zero)
           /\ process_candidate W (PDict fields) cfg st = (Ok o, st')
           /\ (o = SkipLiquidity <-> below_liquidity_floor cfg liq = true)
           /\ (o = SkipPrice <->
               below_liquidity_floor cfg liq = false
               /\ in_price_band cfg price = false)
           /\ (o = SkipVolume <->
               below_liquidity_floor cfg liq = false
               /\ in_price_band cfg price = true
               /\ fst (verify_volume W (PDict info) cfg st1) = Ok false)
           /\ ((exists b : bool, o = Added b) <->
               below_liquidity_floor cfg liq = false
               /\ in_price_band cfg price = true
               /\ fst (verify_volume W (PDict info) cfg st1) = Ok true)
           /\ (forall b : bool,
                  o = Added b ->
                  pending st'
                  = (pending st ++ [snapshot_for fields liq price vol])%list)
           /\ ((forall b : bool, o <> Added b) -> pending st' = pending st)).
Proof.
  split; [apply parsed_missing_or_non_numeric|].
  intros fields info rest cfg st Hbl Hdev Hfetch Hcl Hcv Hol Hop Hov st1.
  destruct (parsed_when_not_oversized W _ Hol) as (liq & Hliq).
  destruct (parsed_when_not_oversized W _ Hop) as (price & Hprice).
  destruct (parsed_when_not_oversized W _ Hov) as (vol & Hvol).
  exists liq, price, vol.
  assert (Hzero : forall v f,
             parsed W v = Ok f -> missing_or_non_numeric W v = true -> f = F64.zero).
  { intros v f Hf Hm. rewrite (parsed_missing_or_non_numeric W v Hm) in Hf.
    now injection Hf. }
  pose proof (Hzero _ _ Hliq) as Hzl.
  pose proof (Hzero _ _ Hprice) as Hzp.
  pose proof (Hzero _ _ Hvol) as Hzv.
  assert (Hliq' := Hliq). assert (Hprice' := Hprice). assert (Hvol' := Hvol).
  rewrite <- (parsed_nested W info "liquidity" "usd" Hcl) in Hliq'.
  rewrite <- (parsed_flat W info "priceUsd") in Hprice'.
  rewrite <- (parsed_nested W info "volume" "h1" Hcv) in Hvol'.
  unfold process_candidate. run_steps.
  fold (field fields "tokenAddress") (field fields "developer")
    (field fields "chainId") (field fields "icon") (field fields "description")
    (field fields "links").
  rewrite Hbl, Hdev, Hfetch. cbn [py_index0]. rewrite Hliq', Hprice'.
  fold (below_liquidity_floor cfg liq) (in_price_band cfg price) st1.
  destruct (below_liquidity_floor cfg liq) eqn:Hbelow.
  { exists SkipLiquidity, st1.
    repeat (split; [assumption|]). split; [reflexivity|].
    split; [tauto|].
    split; [split; [discriminate | intros [H _]; discriminate H]|].
    split; [split; [discriminate | intros [H _]; discriminate H]|].
    split; [split; [intros [b H]; discriminate H | intros [H _]; discriminate H]|].
    split; [intros b H; discriminate H | reflexivity]. }
  destruct (in_price_band cfg price) eqn:Hband; cbn [negb].
  2:{ exists SkipPrice, st1.
      repeat (split; [assumption|]). split; [reflexivity|].
      split; [split; discriminate|]. split; [tauto|].
      split; [split; [discriminate | intros (_ & H & _); discriminate H]|].
      split; [split; [intros [b H]; discriminate H
                     | intros (_ & H & _); discriminate H]|].
      split; [intros b H; discriminate H | reflexivity]. }
  destruct (verify_volume_returns W info cfg st1 vol Hvol') as (ok & st2 & Hvv & Hp2).
  rewrite Hvv. cbn [fst].
  destruct ok; cbn [negb].
  2:{ exists SkipVolume, st2.
      repeat (split; [assumption|]). split; [reflexivity|].
      split; [split; discriminate|].
      split; [split; [discriminate | intros [_ H]; discriminate H]|].
      split; [tauto|].
      split; [split; [intros [b H]; discriminate H
                     | intros (_ & _ & H); discriminate H]|].
      split; [intros b H; discriminate H | intros _; exact Hp2]. }
  destruct (verify_rugcheck_returns W fields cfg st2) as (b & st3 & Hrc & Hp3).
  rewrite Hrc, Hvol'. unfold session_add.
  exists (Added b). eexists.
  repeat (split; [assumption|]). split; [reflexivity|].
  split; [split; discriminate|].
  split; [split; [discriminate | intros [_ H]; discriminate H]|].
  split; [split; [discriminate | intros (_ & _ & H); discriminate H]|].
  split; [split; [auto | intros _; now exists b]|].
  split.
  - intros b' _. cbn [pending]. rewrite Hp3, Hp2. reflexivity.
  - intros Hnot. now contradiction (Hnot b).
Qed.

Lemma unparsable_numbers_count_as_zero_witness :
  let w := Examples.world_of (Ok (PList [Examples.candidate "0xA"]))
             Examples.unparsable_pairs (Raise TransportError)
             (Raise TransportError) in
  exists (o : outcome) (st' : state),
    process_candidate w (Examples.candidate "0xA") Examples.permissive
      Examples.empty_state = (Ok o, st')
    /\ (exists b : bool, o = Added b)
    /\ pending st'
       = [snapshot_for (Examples.candidate_fields "0xA") F64.zero F64.zero F64.zero].
Proof.
  intros w.
  destruct (unparsable_numbers_count_as_zero w) as [_ Hpipe].
  destruct (Hpipe (Examples.candidate_fields "0xA") Examples.unparsable_fields []
              Examples.permissive Examples.empty_state)
    as (liq & price & vol & o & st' & _ & _ & _ & Hzl & Hzp & Hzv & Hrun & _ & _ & _
        & Hadded & Hsnap & _).
  - reflexivity.
  - reflexivity.
  - reflexivity.
  - reflexivity.
  - reflexivity.
  - reflexivity.
  - reflexivity.
  - reflexivity.
  - rewrite (Hzl eq_refl), (Hzp eq_refl), (Hzv eq_refl) in *.
    assert (Hb : exists b : bool, o = Added b).
    { apply Hadded. repeat split; vm_compute; reflexivity. }
    exists o, st'. split; [exact Hrun|]. split; [exact Hb|].
    destruct Hb as [b Hb]. exact (Hsnap b Hb).
Defined.

(** C8, as the claim has it, fails: a pair record whose [liquidity] entry
    is the string "n/a" makes the body of the loop raise [AttributeError],
    which ends the cycle; the next candidate is not fetched. *)
Lemma non_numeric_liquidity_entry_raises :
  let w := Examples.world_of
             (Ok (PList [Examples.candidate "0xA"; Examples.candidate "0xC"]))
             Examples.malformed_pairs (Raise TransportError)
             (Raise TransportError) in
  process_candidate w (Examples.candidate "0xA") Examples.permissive
    Examples.empty_state
  = (Raise AttributeError,
     record_event (EvGetTokenInfo (PStr "solana") (PStr "0xA")) Examples.empty_state)
  /\ run_cycle w Examples.permissive Examples.empty_state
     = (Ok (Raise AttributeError),
        {| trace := [EvGetProfiles; EvGetTokenInfo (PStr "solana") (PStr "0xA");
                     EvRollback; EvSleep 600];
           pending := [];
           store := [] |}).
Proof. intros w. split; vm_compute; reflexivity. Qed.

(** C9, as amended: with the external provider enabled but its URL or its
    token absent (or empty), [verify_volume] skips the external check
    rather than failing closed: on a pair record whose [volume] entry is
    absent or an object and whose hourly volume is no integer beyond the
    float range, it admits, without a call to the provider, as soon as the
    internal check is disabled or the volume read passes it. *)
Theorem verify_volume_skips_unconfigured_provider
    (W : world) (d : list (string * pyval)) (cfg : config) (st : state) :
  let vv := volume_verification cfg in
  container_ok d "volume" = true ->
  oversized (nested_value d "volume" "h1") = false ->
  use_pocket_universe vv = true ->
  opt_truthy (pu_api_url (pocket_universe vv)) = false
  \/ opt_truthy (pu_api_token (pocket_universe vv)) = false ->
  use_internal_algorithm vv = false
  \/ (exists v : float,
         parsed W (nested_value d "volume" "h1") = Ok v
         /\ F64.ltb v (get_or (fake_volume_threshold vv) (F64.of_Z 5)) = false) ->
  verify_volume W (PDict d) cfg st
  = (Ok true, record_event (EvVerifyVolume (PDict d)) st).
Proof.
  intros vv Hc Hov Hpu Hmiss Hint.
  destruct (parsed_when_not_oversized W _ Hov) as (v & Hv).
  assert (Hv' := Hv). rewrite <- (parsed_nested W d "volume" "h1" Hc) in Hv'.
  unfold verify_volume, bind, emit, lift. fold vv. rewrite Hv', Hpu.
  assert (E1 : use_internal_algorithm vv
               && F64.ltb v (get_or (fake_volume_threshold vv) (F64.of_Z 5))
               = false).
  { destruct Hint as [-> | (v' & Hv'' & Hlt)]; [reflexivity|].
    rewrite Hv in Hv''. injection Hv'' as <-. rewrite Hlt. apply andb_false_r. }
  assert (E2 : opt_truthy (pu_api_url (pocket_universe vv))
               && opt_truthy (pu_api_token (pocket_universe vv)) = false).
  { destruct Hmiss as [-> | ->]; [reflexivity | apply andb_false_r]. }
  rewrite E1, E2. reflexivity.
Qed.

Lemma verify_volume_skips_unconfigured_provider_witness :
  verify_volume
    (Examples.world_of (Raise TransportError) (fun _ => Raise TransportError)
       (Ok (PDict [("volumeAuthentic", PBool false)])) (Raise TransportError))
    (Examples.pair_info 20000 10)
    (Examples.scenario (Examples.unconfigured_provider true) Examples.no_rugcheck)
    Examples.empty_state
  = (Ok true,
     record_event (EvVerifyVolume (Examples.pair_info 20000 10)) Examples.empty_state).
Proof.
  apply (verify_volume_skips_unconfigured_provider _
           [("liquidity", PDict [("usd", PInt 20000)]);
            ("priceUsd", PStr "0.01");
            ("volume", PDict [("h1", PInt 10)])]).
  - reflexivity.
  - reflexivity.
  - reflexivity.
  - left. reflexivity.
  - right. exists (F64.of_Z 10). split; vm_compute; reflexivity.
Defined.

(** C9, as the claim has it, fails: with the internal check disabled and
    the provider enabled without URL and token, a pair record whose
    [volume] entry is null makes [verify_volume] raise [AttributeError]
    instead of returning [True]; the body of the loop hands it such a
    record, since its liquidity and its price pass the filters. *)
Lemma null_volume_entry_raises :
  let w := Examples.world_of (Ok (PList [Examples.candidate "0xA"]))
             Examples.null_volume_pairs (Raise TransportError)
             (Raise TransportError) in
  let cfg :=
    Examples.scenario (Examples.unconfigured_provider false) Examples.no_rugcheck in
  verify_volume w (PDict Examples.null_volume_fields) cfg Examples.empty_state
  = (Raise AttributeError,
     record_event (EvVerifyVolume (PDict Examples.null_volume_fields))
       Examples.empty_state)
  /\ process_candidate w (Examples.candidate "0xA") cfg Examples.empty_state
     = (Raise AttributeError,
        {| trace := [EvGetTokenInfo (PStr "solana") (PStr "0xA");
                     EvVerifyVolume (PDict Examples.null_volume_fields)];
           pending := [];
           store := [] |}).
Proof. intros w cfg. split; vm_compute; reflexivity. Qed.

(** The safety provider's answers on the candidate of the scenario: only
    status "Good" without the bundled flag is admitted. *)
Example verify_rugcheck_verdicts :
  let cfg := Examples.scenario Examples.scenario_volume Examples.good_rugcheck in
  let run answer :=
    fst (verify_rugcheck
           (Examples.world_of (Raise TransportError) Examples.good_pairs
              (Raise TransportError) answer)
           (Examples.candidate "0xA") cfg Examples.empty_state) in
  run (Ok (PDict [("status", PStr "Good"); ("bundled", PBool false)])) = Ok true
  /\ run (Ok (PDict [("status", PStr "Good")])) = Ok true
  /\ run (Ok (PDict [("status", PStr "Good"); ("bundled", PBool true)])) = Ok false
  /\ run (Ok (PDict [("status", PStr "good"); ("bundled", PBool false)])) = Ok false
  /\ run (Ok (PList [])) = Ok false
  /\ run (Raise TransportError) = Ok false.
Proof. intros cfg run. repeat split; vm_compute; reflexivity. Qed.

(** * Further properties of the code *)

(** ** The verification helpers, in full *)

(** [verify_volume] on a pair record whose volume parses: it admits exactly
    when the internal check does not reject and the external provider is
    off, unconfigured, or answers with a true [volumeAuthentic]; the
    provider is called exactly when the internal check passes and the
    provider is on and configured, and then once. *)
Theorem verify_volume_admits_iff
    (W : world) (d : list (string * pyval)) (cfg : config) (st : state) (v : float) :
  let vv := volume_verification cfg in
  let url := get_or (pu_api_url (pocket_universe vv)) "" in
  let token := get_or (pu_api_token (pocket_universe vv)) "" in
  let addr := field d "tokenAddress" in
  let st1 := record_event (EvVerifyVolume (PDict d)) st in
  let internal_rejects :=
    use_internal_algorithm vv
    && F64.ltb v (get_or (fake_volume_threshold vv) (F64.of_Z 5)) in
  let external_on :=
    use_pocket_universe vv
    && (opt_truthy (pu_api_url (pocket_universe vv))
        && opt_truthy (pu_api_token (pocket_universe vv))) in
  or_zero (nested_float W (PDict d) "volume" "h1") = Ok v ->
  exists ok : bool,
    verify_volume W (PDict d) cfg st
    = (Ok ok,
       if negb internal_rejects && external_on
       then record_event (EvPocketUniverse url token addr) st1
       else st1)
    /\ (ok = true <->
        internal_rejects = false
        /\ (external_on = false
            \/ exists result flag : pyval,
                http_pocket_universe W (trace st1) url token addr = Ok result
                /\ py_get result "volumeAuthentic" (PBool false) = Ok flag
                /\ py_truthy flag = true)).
Proof.
  intros vv url token addr st1 internal_rejects external_on Hv.
  unfold verify_volume, bind, emit, lift. rewrite Hv. cbv zeta.
  fold vv url token st1. fold internal_rejects.
  destruct internal_rejects; cbn [negb andb].
  { exists false. split; [reflexivity|].
    split; [discriminate | intros [H _]; discriminate H]. }
  unfold external_on.
  destruct (use_pocket_universe vv); cbn [andb].
  2:{ exists true. split; [reflexivity|]. split; auto. }
  destruct (opt_truthy (pu_api_url (pocket_universe vv))
            && opt_truthy (pu_api_token (pocket_universe vv))).
  2:{ exists true. split; [reflexivity|]. split; auto. }
  unfold try_except, bind, call, lift, ret. cbn [py_get].
  fold (field d "tokenAddress"). fold addr.
  destruct (http_pocket_universe W (trace st1) url token addr)
    as [result | e] eqn:Hcall.
  2:{ exists false. split; [reflexivity|]. split; [discriminate|].
      intros (_ & [H | (r & f & H & _)]); discriminate H. }
  destruct (py_get result "volumeAuthentic" (PBool false)) as [flag | e] eqn:Hflag.
  2:{ exists false. split; [reflexivity|]. split; [discriminate|].
      intros (_ & [H | (r & f & Hr & Hf & _)]); [discriminate H|].
      injection Hr as <-. congruence. }
  destruct (py_truthy flag) eqn:Ht; cbn [negb].
  - exists true. split; [reflexivity|]. split; [|reflexivity].
    intros _. split; [reflexivity|]. right. exists result, flag. auto.
  - exists false. split; [reflexivity|]. split; [discriminate|].
    intros (_ & [H | (r & f & Hr & Hf & Ht')]); [discriminate H|].
    injection Hr as <-. congruence.
Qed.

Lemma verify_volume_admits_iff_witness :
  exists ok : bool,
    verify_volume
      (Examples.world_of (Raise TransportError) Examples.good_pairs
         (Ok (PDict [("volumeAuthentic", PBool true)])) (Raise TransportError))
      (Examples.pair_info 20000 10)
      (Examples.scenario
         {| use_internal_algorithm := true;
            fake_volume_threshold := None;
            use_pocket_universe := true;
            pocket_universe :=
              {| pu_api_url := Some "https://api.pocketuniverse.com/verify";
                 pu_api_token := Some "secret" |} |}
         Examples.no_rugcheck)
      Examples.empty_state
    = (Ok ok,
       {| trace := [EvVerifyVolume (Examples.pair_info 20000 10);
                    EvPocketUniverse "https://api.pocketuniverse.com/verify"
                      "secret" PNone];
          pending := [];
          store := [] |}).
Proof.
  destruct (verify_volume_admits_iff
              (Examples.world_of (Raise TransportError) Examples.good_pairs
                 (Ok (PDict [("volumeAuthentic", PBool true)]))
                 (Raise TransportError))
              [("liquidity", PDict [("usd", PInt 20000)]);
               ("priceUsd", PStr "0.01");
               ("volume", PDict [("h1", PInt 10)])]
              (Examples.scenario
                 {| use_internal_algorithm := true;
                    fake_volume_threshold := None;
                    use_pocket_universe := true;
                    pocket_universe :=
                      {| pu_api_url := Some "https://api.pocketuniverse.com/verify";
                         pu_api_token := Some "secret" |} |}
                 Examples.no_rugcheck)
              Examples.empty_state (F64.of_Z 10))
    as (ok & Hrun & _).
  - vm_compute. reflexivity.
  - exists ok. exact Hrun.
Defined.

(** A volume that parses to NaN passes the internal check, whatever the
    threshold: with the external provider off, [verify_volume] admits. *)
Theorem verify_volume_admits_nan
    (W : world) (d : list (string * pyval)) (cfg : config) (st : state) :
  or_zero (nested_float W (PDict d) "volume" "h1") = Ok S754_nan ->
  use_pocket_universe (volume_verification cfg) = false ->
  verify_volume W (PDict d) cfg st
  = (Ok true, record_event (EvVerifyVolume (PDict d)) st).
Proof.
  intros Hv Hpu. unfold verify_volume, bind, emit, lift. rewrite Hv, Hpu.
  cbv zeta. replace (F64.ltb S754_nan _) with false by reflexivity.
  now rewrite andb_false_r.
Qed.

Lemma verify_volume_admits_nan_witness :
  verify_volume
    {| str_lower := Examples.lower;
       float_of_str := fun s => if String.eqb s "nan" then Some S754_nan else None;
       http_profiles := fun _ => Raise TransportError;
       http_token_info := fun _ _ _ => Raise TransportError;
       http_pocket_universe := fun _ _ _ _ => Raise TransportError;
       http_rugcheck := fun _ _ _ _ => Raise TransportError;
       utcnow := fun _ => 0;
       db_commit_error := fun _ _ => None;
       analysis_error := fun _ _ => None |}
    (PDict [("volume", PDict [("h1", PStr "nan")])])
    (Examples.scenario Examples.scenario_volume Examples.no_rugcheck)
    Examples.empty_state
  = (Ok true,
     record_event (EvVerifyVolume (PDict [("volume", PDict [("h1", PStr "nan")])]))
       Examples.empty_state).
Proof.
  apply verify_volume_admits_nan.
  - reflexivity.
  - reflexivity.
Defined.

(** [verify_rugcheck] on a candidate record calls the provider exactly when
    URL, token and address are all present, and then once; it never adds a
    snapshot and never touches the table. *)
Theorem verify_rugcheck_calls_once
    (W : world) (fields : list (string * pyval)) (cfg : config) (st : state) :
  let conf := rugcheck cfg in
  let url := get_or (rc_api_url conf) "" in
  let token := get_or (rc_api_token conf) "" in
  let addr := field fields "tokenAddress" in
  let st1 := record_event (EvVerifyRugcheck (PDict fields)) st in
  snd (verify_rugcheck W (PDict fields) cfg st)
  = if opt_truthy (rc_api_url conf) && opt_truthy (rc_api_token conf)
       && py_truthy addr
    then record_event (EvRugcheck url token addr) st1
    else st1.
Proof.
  intros conf url token addr st1.
  unfold verify_rugcheck, bind, emit, lift. cbn [py_get]. cbv zeta.
  fold (field fields "tokenAddress"). fold conf url token addr st1.
  replace (negb (opt_truthy (rc_api_url conf))
           || negb (opt_truthy (rc_api_token conf)) || negb (py_truthy addr))
    with (negb (opt_truthy (rc_api_url conf) && opt_truthy (rc_api_token conf)
                && py_truthy addr))
    by (now rewrite !negb_andb).
  destruct (opt_truthy (rc_api_url conf) && opt_truthy (rc_api_token conf)
            && py_truthy addr); cbn [negb]; [|reflexivity].
  unfold try_except, bind, call, lift, ret.
  destruct (http_rugcheck W (trace st1) url token addr) as [result | e];
    [|reflexivity].
  destruct (py_get result "status" (PStr "")); [|reflexivity].
  destruct (py_get result "bundled" (PBool false)); [|reflexivity].
  destruct (negb (py_eq_str a (get_or (required_status conf) "Good")));
    [reflexivity|].
  destruct (py_truthy a0); reflexivity.
Qed.

(** ** The candidate loop, stage by stage *)

(** A candidate that is not a JSON object makes the body of the loop raise
    [AttributeError] at its first line, before any call. *)
Theorem candidate_not_an_object_raises
    (W : world) (token_data : pyval) (cfg : config) (st : state) :
  (forall fields, token_data <> PDict fields) ->
  process_candidate W token_data cfg st = (Raise AttributeError, st).
Proof.
  intros Hnot. unfold process_candidate, bind, lift.
  destruct token_data; try reflexivity. now contradiction (Hnot d).
Qed.

Lemma candidate_not_an_object_raises_witness :
  process_candidate
    (Examples.world_of (Raise TransportError) Examples.good_pairs
       (Raise TransportError) (Raise TransportError))
    (PStr "0xA") Examples.permissive Examples.empty_state
  = (Raise AttributeError, Examples.empty_state).
Proof.
  apply candidate_not_an_object_raises. intros fields H. discriminate H.
Defined.

(** The developer blacklist is matched without regard to case, and a match
    skips the candidate before the pair list is fetched: no event at all. *)
Theorem developer_blacklist_ignores_case
    (W : world) (fields : list (string * pyval)) (cfg : config) (st : state)
    (dev listed : string) :
  py_in_strs (field fields "tokenAddress") (coin_blacklist cfg) = false ->
  field fields "developer" = PStr dev ->
  dev <> "" ->
  In listed (dev_blacklist cfg) ->
  str_lower W dev = str_lower W listed ->
  process_candidate W (PDict fields) cfg st = (Ok SkipDevBlacklist, st).
Proof.
  intros Hbl Hdev Hne Hin Hlow.
  unfold process_candidate. run_steps.
  fold (field fields "tokenAddress") (field fields "developer").
  rewrite Hbl, Hdev. unfold dev_blacklisted. cbn [py_truthy py_lower].
  replace (negb (String.eqb dev "")) with true
    by (symmetry; apply negb_true_iff; now apply String.eqb_neq).
  replace (existsb (String.eqb (str_lower W dev))
             (map (str_lower W) (dev_blacklist cfg))) with true; [reflexivity|].
  symmetry. apply existsb_exists. exists (str_lower W listed). split.
  - now apply in_map.
  - rewrite Hlow. apply String.eqb_refl.
Qed.

Lemma developer_blacklist_ignores_case_witness :
  process_candidate
    (Examples.world_of (Raise TransportError) Examples.good_pairs
       (Raise TransportError) (Raise TransportError))
    (PDict [("tokenAddress", PStr "0xA"); ("developer", PStr "Rug_Dev1")])
    (Examples.scenario Examples.scenario_volume Examples.no_rugcheck)
    Examples.empty_state
  = (Ok SkipDevBlacklist, Examples.empty_state).
Proof.
  apply (developer_blacklist_ignores_case _ _ _ _ "Rug_Dev1" "rug_dev1").
  - reflexivity.
  - reflexivity.
  - discriminate.
  - simpl. auto.
  - reflexivity.
Defined.

(** A developer entry that is truthy and not a string (a number, a list, an
    object, [true]) makes the body of the loop raise [AttributeError] at
    [dev.lower()], before the pair list is fetched. *)
Theorem developer_not_a_string_raises
    (W : world) (fields : list (string * pyval)) (cfg : config) (st : state) :
  py_in_strs (field fields "tokenAddress") (coin_blacklist cfg) = false ->
  py_truthy (field fields "developer") = true ->
  (forall s, field fields "developer" <> PStr s) ->
  process_candidate W (PDict fields) cfg st = (Raise AttributeError, st).
Proof.
  intros Hbl Htrue Hnot.
  unfold process_candidate. run_steps.
  fold (field fields "tokenAddress") (field fields "developer").
  rewrite Hbl. unfold dev_blacklisted. rewrite Htrue.
  destruct (field fields "developer"); try reflexivity.
  now contradiction (Hnot s).
Qed.

Lemma developer_not_a_string_raises_witness :
  process_candidate
    (Examples.world_of (Raise TransportError) Examples.good_pairs
       (Raise TransportError) (Raise TransportError))
    (PDict [("tokenAddress", PStr "0xA"); ("developer", PInt 7)])
    Examples.permissive Examples.empty_state
  = (Raise AttributeError, Examples.empty_state).
Proof.
  apply developer_not_a_string_raises.
  - reflexivity.
  - reflexivity.
  - intros s H. discriminate H.
Defined.

(** The state in which the body of the loop reaches the two filters: the
    candidate passed both blacklists and the first pair of its list gave a
    liquidity and a price. *)
Lemma process_candidate_filters
    (W : world) (fields : list (string * pyval)) (cfg : config) (st : state)
    (info : pyval) (rest : list pyval) (liq price : float) :
  py_in_strs (field fields "tokenAddress") (coin_blacklist cfg) = false ->
  dev_blacklisted W (field fields "developer") (dev_blacklist cfg) = Ok false ->
  http_token_info W (trace st) (field fields "chainId")
    (field fields "tokenAddress") = Ok (PList (info :: rest)) ->
  or_zero (nested_float W info "liquidity" "usd") = Ok liq ->
  or_zero (flat_float W info "priceUsd") = Ok price ->
  let st1 :=
    record_event
      (EvGetTokenInfo (field fields "chainId") (field fields "tokenAddress")) st in
  (below_liquidity_floor cfg liq = true ->
   process_candidate W (PDict fields) cfg st = (Ok SkipLiquidity, st1))
  /\ (below_liquidity_floor cfg liq = false ->
      in_price_band cfg price = false ->
      process_candidate W (PDict fields) cfg st = (Ok SkipPrice, st1)).
Proof.
  intros Hbl Hdev Hfetch Hliq Hprice st1.
  unfold process_candidate. run_steps.
  fold (field fields "tokenAddress") (field fields "developer")
    (field fields "chainId").
  rewrite Hbl, Hdev, Hfetch. cbn [py_index0]. rewrite Hliq, Hprice.
  fold (below_liquidity_floor cfg liq) (in_price_band cfg price) st1.
  split.
  - intros ->. reflexivity.
  - intros -> ->. reflexivity.
Qed.

(** A price outside [[min_price_usd, max_price_usd]] skips the candidate
    with no verification: the only event is the fetch of the pair list. *)
Theorem price_out_of_band_short_circuits
    (W : world) (fields : list (string * pyval)) (cfg : config) (st : state)
    (info : pyval) (rest : list pyval) (liq price : float) :
  py_in_strs (field fields "tokenAddress") (coin_blacklist cfg) = false ->
  dev_blacklisted W (field fields "developer") (dev_blacklist cfg) = Ok false ->
  http_token_info W (trace st) (field fields "chainId")
    (field fields "tokenAddress") = Ok (PList (info :: rest)) ->
  or_zero (nested_float W info "liquidity" "usd") = Ok liq ->
  or_zero (flat_float W info "priceUsd") = Ok price ->
  below_liquidity_floor cfg liq = false ->
  in_price_band cfg price = false ->
  process_candidate W (PDict fields) cfg st
  = (Ok SkipPrice,
     record_event
       (EvGetTokenInfo (field fields "chainId") (field fields "tokenAddress")) st).
Proof.
  intros Hbl Hdev Hfetch Hliq Hprice Hfloor Hband.
  now apply (process_candidate_filters W fields cfg st info rest liq price).
Qed.

Lemma price_out_of_band_short_circuits_witness :
  process_candidate
    (Examples.world_of (Raise TransportError) Examples.good_pairs
       (Raise TransportError) (Raise TransportError))
    (Examples.candidate "0xA")
    {| filters :=
         {| min_liquidity_usd := None;
            min_price_usd := Some (F64.of_Z 1);
            max_price_usd := None |};
       coin_blacklist := [];
       dev_blacklist := [];
       volume_verification := Examples.scenario_volume;
       rugcheck := Examples.no_rugcheck;
       telegram := {| bot_token := None; chat_id := None |} |}
    Examples.empty_state
  = (Ok SkipPrice,
     record_event (EvGetTokenInfo (PStr "solana") (PStr "0xA")) Examples.empty_state).
Proof.
  apply (price_out_of_band_short_circuits _ (Examples.candidate_fields "0xA") _ _
           (Examples.pair_info 20000 10) [] (F64.of_Z 20000) Examples.f_0_01).
  - reflexivity.
  - reflexivity.
  - reflexivity.
  - vm_compute. reflexivity.
  - vm_compute. reflexivity.
  - vm_compute. reflexivity.
  - vm_compute. reflexivity.
Defined.

(** NaN in the filters: a liquidity that parses to NaN is never below the
    floor, and a price that parses to NaN is outside every band, so such a
    candidate is skipped at the price stage whatever the configuration. *)
Theorem nan_price_is_always_skipped
    (W : world) (fields : list (string * pyval)) (cfg : config) (st : state)
    (info : pyval) (rest : list pyval) (liq : float) :
  py_in_strs (field fields "tokenAddress") (coin_blacklist cfg) = false ->
  dev_blacklisted W (field fields "developer") (dev_blacklist cfg) = Ok false ->
  http_token_info W (trace st) (field fields "chainId")
    (field fields "tokenAddress") = Ok (PList (info :: rest)) ->
  or_zero (nested_float W info "liquidity" "usd") = Ok liq ->
  or_zero (flat_float W info "priceUsd") = Ok S754_nan ->
  F64.is_nan liq = true \/ below_liquidity_floor cfg liq = false ->
  process_candidate W (PDict fields) cfg st
  = (Ok SkipPrice,
     record_event
       (EvGetTokenInfo (field fields "chainId") (field fields "tokenAddress")) st).
Proof.
  intros Hbl Hdev Hfetch Hliq Hprice Hfloor.
  apply (process_candidate_filters W fields cfg st info rest liq S754_nan);
    auto.
  - destruct Hfloor as [Hnan | H]; [|exact H].
    destruct liq; try discriminate. reflexivity.
  - unfold in_price_band.
    replace (F64.leb S754_nan _) with false by reflexivity.
    apply andb_false_r.
Qed.

Lemma nan_price_is_always_skipped_witness :
  let w :=
    {| str_lower := Examples.lower;
       float_of_str := fun s => if String.eqb s "nan" then Some S754_nan else None;
       http_profiles := fun _ => Raise TransportError;
       http_token_info :=
         fun _ _ _ =>
           Ok (PList [PDict [("liquidity", PDict [("usd", PStr "nan")]);
                             ("priceUsd", PStr "nan")]]);
       http_pocket_universe := fun _ _ _ _ => Raise TransportError;
       http_rugcheck := fun _ _ _ _ => Raise TransportError;
       utcnow := fun _ => 0;
       db_commit_error := fun _ _ => None;
       analysis_error := fun _ _ => None |} in
  process_candidate w (Examples.candidate "0xA") Examples.permissive
    Examples.empty_state
  = (Ok SkipPrice,
     record_event (EvGetTokenInfo (PStr "solana") (PStr "0xA")) Examples.empty_state).
Proof.
  intros w.
  apply (nan_price_is_always_skipped w (Examples.candidate_fields "0xA") _ _
           (PDict [("liquidity", PDict [("usd", PStr "nan")]);
                   ("priceUsd", PStr "nan")]) [] S754_nan).
  - reflexivity.
  - reflexivity.
  - reflexivity.
  - reflexivity.
  - reflexivity.
  - left. reflexivity.
Defined.

(** A snapshot is added only for a candidate record that is in neither
    blacklist, whose first pair gave a liquidity not below the floor and a
    price inside the band, and that [verify_volume] admitted; the snapshot
    holds the candidate's fields and the three numbers read, and
    [verify_rugcheck] has run by then, whatever it answered. *)
Theorem added_only_after_five_stages
    (W : world) (token_data : pyval) (cfg : config) (st st' : state) (b : bool) :
  process_candidate W token_data cfg st = (Ok (Added b), st') ->
  exists (fields : list (string * pyval)) (pairs info : pyval)
         (liq price vol : float) (st2 st3 : state),
    token_data = PDict fields
    /\ py_in_strs (field fields "tokenAddress") (coin_blacklist cfg) = false
    /\ dev_blacklisted W (field fields "developer") (dev_blacklist cfg) = Ok false
    /\ http_token_info W (trace st) (field fields "chainId")
         (field fields "tokenAddress") = Ok pairs
    /\ py_index0 pairs = Ok info
    /\ or_zero (nested_float W info "liquidity" "usd") = Ok liq
    /\ or_zero (flat_float W info "priceUsd") = Ok price
    /\ or_zero (nested_float W info "volume" "h1") = Ok vol
    /\ below_liquidity_floor cfg liq = false
    /\ in_price_band cfg price = true
    /\ verify_volume W info cfg
         (record_event
            (EvGetTokenInfo (field fields "chainId") (field fields "tokenAddress"))
            st) = (Ok true, st2)
    /\ verify_rugcheck W token_data cfg st2 = (Ok b, st3)
    /\ st' = {| trace := trace st3 ++ [EvAdd (snapshot_for fields liq price vol)];
                pending := pending st3 ++ [snapshot_for fields liq price vol];
                store := store st3 |}.
Proof.
  intros H. unfold process_candidate in H.
  destruct token_data as [| | | | | |fields];
    try (unfold bind, lift in H; cbn in H; discriminate H).
  revert H. run_steps.
  fold (field fields "tokenAddress") (field fields "developer")
    (field fields "chainId") (field fields "icon") (field fields "description")
    (field fields "links").
  destruct (py_in_strs (field fields "tokenAddress") (coin_blacklist cfg)) eqn:Hbl;
    [discriminate|].
  destruct (dev_blacklisted W (field fields "developer") (dev_blacklist cfg))
    as [[|] | e] eqn:Hdev; try discriminate.
  destruct (http_token_info W (trace st) (field fields "chainId")
              (field fields "tokenAddress")) as [pairs | e] eqn:Hfetch;
    [|discriminate].
  destruct (py_index0 pairs) as [info | e] eqn:Hidx; [|discriminate].
  destruct (or_zero (nested_float W info "liquidity" "usd")) as [liq | e] eqn:Hliq;
    [|discriminate].
  destruct (or_zero (flat_float W info "priceUsd")) as [price | e] eqn:Hprice;
    [|discriminate].
  fold (below_liquidity_floor cfg liq) (in_price_band cfg price).
  destruct (below_liquidity_floor cfg liq) eqn:Hfloor; [discriminate|].
  destruct (in_price_band cfg price) eqn:Hband; cbn [negb]; [|discriminate].
  match goal with
  | |- context [verify_volume W info cfg ?s] =>
      destruct (verify_volume W info cfg s) as [[[|] | e] st2] eqn:Hvv
  end; cbn [negb]; try discriminate.
  destruct (verify_rugcheck W (PDict fields) cfg st2) as [[b' | e] st3] eqn:Hrc;
    [|discriminate].
  destruct (or_zero (nested_float W info "volume" "h1")) as [vol | e] eqn:Hvol;
    [|discriminate].
  unfold session_add. intros Hdone. injection Hdone as <- <-.
  exists fields, pairs, info, liq, price, vol, st2, st3.
  repeat (split; [first [reflexivity | assumption]|]). reflexivity.
Qed.

Lemma added_only_after_five_stages_witness :
  exists (fields : list (string * pyval)) (liq price vol : float),
    Examples.candidate "0xA" = PDict fields
    /\ below_liquidity_floor
         (Examples.scenario Examples.scenario_volume Examples.no_rugcheck) liq
       = false
    /\ in_price_band
         (Examples.scenario Examples.scenario_volume Examples.no_rugcheck) price
       = true.
Proof.
  destruct (added_only_after_five_stages
              (Examples.world_of (Raise TransportError) Examples.good_pairs
                 (Raise TransportError) (Raise TransportError))
              (Examples.candidate "0xA")
              (Examples.scenario Examples.scenario_volume Examples.no_rugcheck)
              Examples.empty_state
              (snd (process_candidate
                      (Examples.world_of (Raise TransportError) Examples.good_pairs
                         (Raise TransportError) (Raise TransportError))
                      (Examples.candidate "0xA")
                      (Examples.scenario Examples.scenario_volume
                         Examples.no_rugcheck)
                      Examples.empty_state))
              false)
    as (fields & pairs & info & liq & price & vol & st2 & st3 & Hf & _ & _ & _ & _
        & _ & _ & _ & Hfloor & Hband & _).
  - vm_compute. reflexivity.
  - exists fields, liq, price, vol. auto.
Defined.

(** *** The session *)

Section KeepsPending.

Context {A B : Type}.

Lemma keeps_pending_ret (a : A) : keeps_pending (ret a).
Proof. intros st. reflexivity. Qed.

Lemma keeps_pending_lift (r : res A) : keeps_pending (lift r).
Proof. intros st. reflexivity. Qed.

Lemma keeps_pending_call (ask : list event -> res A) (e : event) :
  keeps_pending (call ask e).
Proof. intros st. reflexivity. Qed.

Lemma keeps_pending_bind (c : M A) (k : A -> M B) :
  keeps_pending c -> (forall a, keeps_pending (k a)) -> keeps_pending (bind c k).
Proof.
  intros Hc Hk st. unfold bind. specialize (Hc st).
  destruct (c st) as [[a | e] st']; simpl in *.
  - now rewrite Hk.
  - exact Hc.
Qed.

Lemma keeps_pending_try (c : M A) (h : exn -> M A) :
  keeps_pending c -> (forall e, keeps_pending (h e)) ->
  keeps_pending (try_except c h).
Proof.
  intros Hc Hh st. unfold try_except. specialize (Hc st).
  destruct (c st) as [[a | e] st']; simpl in *.
  - exact Hc.
  - now rewrite Hh.
Qed.

End KeepsPending.

Lemma keeps_pending_emit (e : event) : keeps_pending (emit e).
Proof. intros st. reflexivity. Qed.

Ltac keeps_pending_steps :=
  repeat first
    [ apply keeps_pending_ret
    | apply keeps_pending_lift
    | apply keeps_pending_call
    | apply keeps_pending_emit
    | apply keeps_pending_bind; [|intros ?]
    | apply keeps_pending_try; [|intros ?]
    | progress cbv zeta
    | match goal with
      | |- keeps_pending (if ?b then _ else _) => destruct b
      end ].

Lemma verify_volume_keeps_pending (W : world) (token_data : pyval) (cfg : config) :
  keeps_pending (verify_volume W token_data cfg).
Proof. unfold verify_volume. keeps_pending_steps. Qed.

Lemma verify_rugcheck_keeps_pending (W : world) (token_data : pyval) (cfg : config) :
  keeps_pending (verify_rugcheck W token_data cfg).
Proof. unfold verify_rugcheck. keeps_pending_steps. Qed.

(** The body of the loop queues exactly one snapshot when it ends at
    [session_db.add], and none when it ends in a skip or an exception,
    whatever the candidate is. *)
Lemma process_candidate_pending
    (W : world) (token_data : pyval) (cfg : config) (st : state) :
  exists new : list TokenSnapshot,
    pending (snd (process_candidate W token_data cfg st)) = (pending st ++ new)%list
    /\ List.length new
       = match fst (process_candidate W token_data cfg st) with
         | Ok o => count_added [o]
         | Raise _ => 0%nat
         end.
Proof.
  unfold process_candidate.
  destruct token_data as [| | | | | |fields];
    try (exists []; cbn; now rewrite app_nil_r).
  run_steps.
  destruct (py_in_strs _ (coin_blacklist cfg));
    [exists []; cbn; now rewrite app_nil_r|].
  destruct (dev_blacklisted W _ (dev_blacklist cfg)) as [[|] | e];
    try (exists []; cbn; now rewrite app_nil_r).
  destruct (http_token_info W (trace st) _ _) as [pairs | e];
    [|exists []; cbn; now rewrite app_nil_r].
  destruct (py_index0 pairs) as [info | e];
    [|exists []; cbn; now rewrite app_nil_r].
  destruct (or_zero (nested_float W info "liquidity" "usd")) as [liq | e];
    [|exists []; cbn; now rewrite app_nil_r].
  destruct (or_zero (flat_float W info "priceUsd")) as [price | e];
    [|exists []; cbn; now rewrite app_nil_r].
  destruct (F64.ltb liq _); [exists []; cbn; now rewrite app_nil_r|].
  destruct (negb _); [exists []; cbn; now rewrite app_nil_r|].
  match goal with
  | |- context [verify_volume W info cfg ?s] =>
      pose proof (verify_volume_keeps_pending W info cfg s) as Hvv;
      destruct (verify_volume W info cfg s) as [[[|] | e] st2]
  end; cbn [negb snd fst record_event pending] in *;
    try (exists []; rewrite app_nil_r; split; [exact Hvv | reflexivity]).
  pose proof (verify_rugcheck_keeps_pending W (PDict fields) cfg st2) as Hrc.
  destruct (verify_rugcheck W (PDict fields) cfg st2) as [[b | e] st3];
    cbn [snd fst] in *;
    [|exists []; rewrite app_nil_r; split; [congruence | reflexivity]].
  destruct (or_zero (nested_float W info "volume" "h1")) as [vol | e];
    cbn [snd fst];
    [|exists []; rewrite app_nil_r; split; [congruence | reflexivity]].
  unfold session_add. cbn [snd fst pending].
  eexists. split; [rewrite Hrc, Hvv; reflexivity | reflexivity].
Qed.

Lemma count_added_cons (o : outcome) (os : list outcome) :
  count_added (o :: os) = (count_added [o] + count_added os)%nat.
Proof. unfold count_added. simpl. now destruct (is_added o). Qed.

Lemma for_each_pending (W : world) (cfg : config) (l : list pyval) (st : state) :
  exists new : list TokenSnapshot,
    pending (snd (for_each l (fun td => process_candidate W td cfg) st))
    = (pending st ++ new)%list
    /\ forall outs : list outcome,
        fst (for_each l (fun td => process_candidate W td cfg) st) = Ok outs ->
        List.length new = count_added outs.
Proof.
  revert st. induction l as [|x l IH]; intros st.
  - exists []. cbn. rewrite app_nil_r. split; [reflexivity|].
    intros outs H. now injection H as <-.
  - cbn [for_each]. unfold bind, ret.
    destruct (process_candidate_pending W x cfg st) as (new1 & Hp1 & Hl1).
    destruct (process_candidate W x cfg st) as [[o | e] st1]; cbn [fst snd] in *.
    + destruct (IH st1) as (new2 & Hp2 & Hl2).
      destruct (for_each l (fun td => process_candidate W td cfg) st1)
        as [[os | e] st2]; cbn [fst snd] in *.
      * exists (new1 ++ new2)%list. split.
        -- now rewrite Hp2, Hp1, app_assoc.
        -- intros outs H. cbn [fst] in H. injection H as <-.
           rewrite length_app, count_added_cons, Hl1, (Hl2 os eq_refl).
           reflexivity.
      * exists (new1 ++ new2)%list. split.
        -- now rewrite Hp2, Hp1, app_assoc.
        -- intros outs H. discriminate H.
    + exists new1. split; [exact Hp1|]. intros outs H. discriminate H.
Qed.

(** A commit appends one row per queued snapshot, in order, and leaves the
    rows of the table as they are. *)
Lemma insert_rows_appends (W : world) (new : list TokenSnapshot) (table : list row) :
  exists rows : list row,
    insert_rows W table new = (table ++ rows)%list
    /\ map snapshot rows = new.
Proof.
  unfold insert_rows. revert table.
  induction new as [|s new IH]; intros table.
  - exists []. cbn. now rewrite app_nil_r.
  - cbn [fold_left].
    destruct (IH (table ++ [{| id := S (List.length table);
                               snapshot := s;
                               timestamp := utcnow W (S (List.length table)) |}])%list)
      as (rows & Hrows & Hmap).
    eexists (_ :: rows). split.
    + rewrite Hrows, <- app_assoc. reflexivity.
    + cbn. now rewrite Hmap.
Qed.

Lemma notify_all_run
    (flagged : list (string * float)) (cfg : config) (st : state) :
  notify_all flagged cfg st
  = (Ok tt,
     {| trace :=
          trace st
          ++ (if opt_truthy (bot_token (telegram cfg))
                 && opt_truthy (chat_id (telegram cfg))
              then map (fun tp => EvTelegram (fst tp) (snd tp)) flagged
              else []);
        pending := pending st;
        store := store st |}).
Proof.
  revert st. induction flagged as [|[token pct] rest IH]; intros st.
  - cbn. destruct (_ && _); rewrite app_nil_r; now destruct st.
  - cbn [notify_all]. unfold bind, send_telegram_notification.
    rewrite <- negb_andb.
    destruct (opt_truthy (bot_token (telegram cfg))
              && opt_truthy (chat_id (telegram cfg))) eqn:Hc; cbn [negb].
    + unfold emit. rewrite IH. try rewrite Hc. unfold record_event. cbn.
      now rewrite <- app_assoc.
    + unfold ret. rewrite IH. try rewrite Hc. reflexivity.
Qed.

(** How the [try] block of a cycle ends: with the table extended by one
    row per queued snapshot and the session empty; or in an exception, with
    the table as it was, or, when it is the analysis that failed, with the
    batch already committed. *)
Lemma cycle_body_shape (W : world) (cfg : config) (st : state) :
  match cycle_body W cfg st with
  | (Ok outs, st') =>
      pending st' = []
      /\ (exists rows : list row,
             store st' = (store st ++ rows)%list
             /\ List.length rows = (List.length (pending st) + count_added outs)%nat)
      /\ exists tr p, db_commit_error W tr p = None
  | (Raise e, st') =>
      store st' = store st
      \/ (exists (rows : list row) (tr : list event),
             store st' = (store st ++ rows)%list
             /\ analysis_error W tr (store st') = Some e
             /\ exists tr' p, db_commit_error W tr' p = None)
  end.
Proof.
  unfold cycle_body, bind, call, lift.
  destruct (http_profiles W (trace st)) as [profiles | e]; [|now left].
  destruct (token_list_of profiles) as [token_list | e]; [|now left].
  pose proof (for_each_keeps_store token_list (fun td => process_candidate W td cfg)
                (fun x => process_candidate_keeps_store W x cfg)
                (record_event EvGetProfiles st)) as Hstore.
  destruct (for_each_pending W cfg token_list (record_event EvGetProfiles st))
    as (new & Hpend & Hlen).
  destruct (for_each token_list (fun td => process_candidate W td cfg)
              (record_event EvGetProfiles st)) as [[outs | e] st2];
    cbn [fst snd] in *; [|now left].
  unfold session_commit.
  destruct (db_commit_error W (trace st2) (pending st2)) eqn:Hcommit;
    [now left|].
  destruct (insert_rows_appends W (pending st2) (store st2)) as (rows & Hrows & Hmap).
  unfold run_analysis. cbn [trace store].
  destruct (analysis_error W (trace st2 ++ [EvCommit])
              (insert_rows W (store st2) (pending st2))) as [e|] eqn:Han.
  - right. exists rows, (trace st2 ++ [EvCommit])%list. cbn [store].
    split; [now rewrite Hrows, Hstore|]. split; [exact Han | eauto].
  - rewrite notify_all_run. unfold ret. cbn [pending store].
    split; [reflexivity|]. split; [|eauto].
    exists rows. split.
    + rewrite Hrows. now rewrite Hstore.
    + rewrite <- (length_map snapshot), Hmap, Hpend, length_app.
      now rewrite (Hlen outs eq_refl).
Qed.

(** ** The scheduler loop *)

(** One iteration of the loop never lets an exception out: it ends with the
    sleep of 600 seconds and an empty session, and the table keeps its rows.
    When its [try] block failed the table is exactly as before, unless the
    failure came from the analysis, after the commit of the batch. *)
Theorem run_cycle_never_raises (W : world) (cfg : config) (st : state) :
  exists (r : res (list outcome)) (tr : list event) (rows : list row),
    run_cycle W cfg st
    = (Ok r,
       {| trace := tr ++ [EvSleep 600];
          pending := [];
          store := store st ++ rows |})
    /\ (forall e : exn,
           r = Raise e ->
           rows = []
           \/ exists tr' : list event,
               analysis_error W tr' (store st ++ rows) = Some e).
Proof.
  unfold run_cycle, try_except. unfold bind at 1 2 3.
  pose proof (cycle_body_shape W cfg st) as Hshape.
  destruct (cycle_body W cfg st) as [[outs | e] st1].
  - destruct Hshape as (Hpend & (rows & Hrows & _) & _).
    exists (Ok outs), (trace st1), rows.
    unfold ret, emit, record_event. cbn. rewrite Hpend, Hrows.
    split; [reflexivity | discriminate].
  - unfold session_rollback, bind, ret, emit, record_event. cbn.
    destruct Hshape as [Hsame | (rows & tr' & Hrows & Han & _)].
    + exists (Raise e), (trace st1 ++ [EvRollback])%list, [].
      rewrite Hsame, app_nil_r. split; [reflexivity | auto].
    + exists (Raise e), (trace st1 ++ [EvRollback])%list, rows.
      rewrite Hrows. split; [reflexivity|].
      intros e' He'. injection He' as <-. right. exists tr'.
      now rewrite <- Hrows.
Qed.

(** A failure of the analysis comes after the commit: the exception is
    caught like any other, and the batch stays written. *)
Example analysis_failure_keeps_the_batch :
  let w :=
    {| str_lower := Examples.lower;
       float_of_str := Examples.parse_known;
       http_profiles := fun _ => Ok (PList [Examples.candidate "0xA"]);
       http_token_info := fun _ _ addr => Examples.good_pairs addr;
       http_pocket_universe := fun _ _ _ _ => Raise TransportError;
       http_rugcheck := fun _ _ _ _ => Raise TransportError;
       utcnow := fun _ => 0;
       db_commit_error := fun _ _ => None;
       analysis_error := fun _ _ => Some DatabaseError |} in
  let done :=
    run_cycle w (Examples.scenario Examples.scenario_volume Examples.no_rugcheck)
      Examples.empty_state in
  fst done = Ok (Raise DatabaseError)
  /\ map (fun r => token_address (snapshot r)) (store (snd done)) = [PStr "0xA"]
  /\ pending (snd done) = [].
Proof. intros w done. repeat split; vm_compute; reflexivity. Qed.

(** A cycle whose [try] block succeeds leaves the rows of the table as they
    were and appends one row per snapshot of the session: those queued
    before, and one per candidate that reached [session_db.add]. *)
Theorem successful_cycle_appends_one_row_per_added
    (W : world) (cfg : config) (st st' : state) (outs : list outcome) :
  run_cycle W cfg st = (Ok (Ok outs), st') ->
  exists rows : list row,
    store st' = (store st ++ rows)%list
    /\ List.length rows = (List.length (pending st) + count_added outs)%nat.
Proof.
  unfold run_cycle, try_except. unfold bind at 1 2 3.
  pose proof (cycle_body_shape W cfg st) as Hshape.
  destruct (cycle_body W cfg st) as [[outs' | e] st1].
  - unfold ret, emit, record_event. cbn. intros H. injection H as <- <-.
    cbn [store]. now destruct Hshape as (_ & Hrows & _).
  - unfold session_rollback, bind, ret, emit, record_event. cbn.
    intros H. discriminate H.
Qed.

Lemma successful_cycle_appends_one_row_per_added_witness :
  exists rows : list row,
    store (snd (run_cycle
                  (Examples.world_of
                     (Ok (PList [Examples.candidate "0xA";
                                 Examples.candidate "0xBadCoinAddress1";
                                 Examples.candidate "0xB"]))
                     Examples.good_pairs (Raise TransportError)
                     (Raise TransportError))
                  (Examples.scenario Examples.scenario_volume Examples.no_rugcheck)
                  Examples.empty_state))
    = rows
    /\ List.length rows = 2%nat.
Proof.
  destruct (successful_cycle_appends_one_row_per_added
              (Examples.world_of
                 (Ok (PList [Examples.candidate "0xA";
                             Examples.candidate "0xBadCoinAddress1";
                             Examples.candidate "0xB"]))
                 Examples.good_pairs (Raise TransportError) (Raise TransportError))
              (Examples.scenario Examples.scenario_volume Examples.no_rugcheck)
              Examples.empty_state
              (snd (run_cycle
                      (Examples.world_of
                         (Ok (PList [Examples.candidate "0xA";
                                     Examples.candidate "0xBadCoinAddress1";
                                     Examples.candidate "0xB"]))
                         Examples.good_pairs (Raise TransportError)
                         (Raise TransportError))
                      (Examples.scenario Examples.scenario_volume
                         Examples.no_rugcheck)
                      Examples.empty_state))
              [Added false; SkipCoinBlacklist; Added false])
    as (rows & Hstore & Hlen).
  - vm_compute. reflexivity.
  - exists rows. split; [exact Hstore | exact Hlen].
Defined.

(** When the fetch of the profiles raises, the cycle does nothing else: it
    rolls back, sleeps, and leaves the table as it was. *)
Theorem profiles_failure_ends_cycle
    (W : world) (cfg : config) (st : state) (e : exn) :
  http_profiles W (trace st) = Raise e ->
  run_cycle W cfg st
  = (Ok (Raise e),
     {| trace := trace st ++ [EvGetProfiles; EvRollback; EvSleep 600];
        pending := [];
        store := store st |}).
Proof.
  intros Hfail.
  unfold run_cycle, cycle_body, try_except, bind, call. rewrite Hfail.
  unfold session_rollback, emit, ret, record_event. cbn.
  now rewrite <- !app_assoc.
Qed.

Lemma profiles_failure_ends_cycle_witness :
  run_cycle
    (Examples.world_of (Raise TransportError) Examples.good_pairs
       (Raise TransportError) (Raise TransportError))
    Examples.permissive Examples.empty_state
  = (Ok (Raise TransportError),
     {| trace := [EvGetProfiles; EvRollback; EvSleep 600];
        pending := [];
        store := [] |}).
Proof. apply (profiles_failure_ends_cycle _ _ Examples.empty_state). reflexivity. Defined.



(** Any number of iterations of the loop returns normally, and the table
    only grows at its end: no row is changed or removed. *)
Theorem main_loop_is_append_only
    (W : world) (cfg : config) (n : nat) (st : state) :
  exists (st' : state) (rows : list row),
    main_loop W n cfg st = (Ok tt, st')
    /\ store st' = (store st ++ rows)%list.
Proof.
  revert st. induction n as [|n IH]; intros st.
  - exists st, []. cbn. now rewrite app_nil_r.
  - cbn [main_loop]. unfold bind at 1.
    unfold run_cycle, try_except. unfold bind at 1 2 3.
    pose proof (cycle_body_shape W cfg st) as Hshape.
    destruct (cycle_body W cfg st) as [[outs | e] st1].
    + destruct Hshape as (_ & (rows1 & Hrows1 & _) & _).
      unfold ret, emit. cbn.
      destruct (IH (record_event (EvSleep 600) st1)) as (st' & rows2 & Hrun & Hrows2).
      exists st', (rows1 ++ rows2)%list. split; [exact Hrun|].
      rewrite Hrows2. cbn [record_event store]. now rewrite Hrows1, app_assoc.
    + unfold session_rollback, bind, ret, emit. cbn.
      match goal with
      | |- context [main_loop W n cfg ?s] =>
          destruct (IH s) as (st' & rows2 & Hrun & Hrows2)
      end.
      destruct Hshape as [Hsame | (rows1 & _ & Hrows1 & _)].
      * exists st', rows2. split; [exact Hrun|].
        rewrite Hrows2. cbn [record_event store]. now rewrite Hsame.
      * exists st', (rows1 ++ rows2)%list. split; [exact Hrun|].
        rewrite Hrows2. cbn [record_event store]. now rewrite Hrows1, app_assoc.
Qed.

(** A candidate that ends in a skip or in an exception queues no snapshot,
    whatever it is and whatever the world answers. *)
Theorem skipped_candidate_queues_nothing
    (W : world) (token_data : pyval) (cfg : config) (st : state) :
  (forall b : bool, fst (process_candidate W token_data cfg st) <> Ok (Added b)) ->
  pending (snd (process_candidate W token_data cfg st)) = pending st.
Proof.
  intros Hskip.
  destruct (process_candidate_pending W token_data cfg st) as (new & Hp & Hl).
  destruct (fst (process_candidate W token_data cfg st)) as [o | e].
  - destruct o; try (now contradiction (Hskip rugcheck_ok));
      destruct new; try discriminate Hl; now rewrite Hp, app_nil_r.
  - destruct new; [|discriminate Hl]. now rewrite Hp, app_nil_r.
Qed.

Lemma skipped_candidate_queues_nothing_witness :
  pending
    (snd (process_candidate
            (Examples.world_of (Raise TransportError) Examples.thin_pairs
               (Raise TransportError) (Raise TransportError))
            (Examples.candidate "0xA")
            (Examples.scenario Examples.scenario_volume Examples.no_rugcheck)
            Examples.empty_state))
  = [].
Proof.
  apply (skipped_candidate_queues_nothing _ _ _ Examples.empty_state).
  intros b H. vm_compute in H. discriminate H.
Defined.

(** An integer too large for a float is not a parsing failure that the
    handlers catch: as a liquidity it makes the body of the loop raise
    [OverflowError] right after the fetch. *)
Theorem oversized_integer_raises
    (W : world) (fields info : list (string * pyval)) (rest : list pyval)
    (cfg : config) (st : state) (z : Z) :
  py_in_strs (field fields "tokenAddress") (coin_blacklist cfg) = false ->
  dev_blacklisted W (field fields "developer") (dev_blacklist cfg) = Ok false ->
  http_token_info W (trace st) (field fields "chainId")
    (field fields "tokenAddress") = Ok (PList (PDict info :: rest)) ->
  nested_value info "liquidity" "usd" = Some (PInt z) ->
  F64.is_inf (F64.of_Z z) = true ->
  process_candidate W (PDict fields) cfg st
  = (Raise OverflowError,
     record_event
       (EvGetTokenInfo (field fields "chainId") (field fields "tokenAddress")) st).
Proof.
  intros Hbl Hdev Hfetch Hval Hinf.
  unfold process_candidate. run_steps.
  fold (field fields "tokenAddress") (field fields "developer")
    (field fields "chainId").
  rewrite Hbl, Hdev, Hfetch. cbn [py_index0].
  unfold nested_value in Hval. unfold nested_float, py_get.
  destruct (assoc "liquidity" info) as [[| | | | | |o]|]; try discriminate Hval.
  rewrite Hval. cbn [py_float]. rewrite Hinf. reflexivity.
Qed.

Lemma oversized_integer_raises_witness :
  process_candidate
    (Examples.world_of (Raise TransportError)
       (fun _ => Ok (PList [PDict [("liquidity", PDict [("usd", PInt (2 ^ 1024))])]]))
       (Raise TransportError) (Raise TransportError))
    (Examples.candidate "0xA") Examples.permissive Examples.empty_state
  = (Raise OverflowError,
     record_event (EvGetTokenInfo (PStr "solana") (PStr "0xA")) Examples.empty_state).
Proof.
  apply (oversized_integer_raises _ (Examples.candidate_fields "0xA")
           [("liquidity", PDict [("usd", PInt (2 ^ 1024))])] [] _ _ (2 ^ 1024)).
  - reflexivity.
  - reflexivity.
  - reflexivity.
  - reflexivity.
  - vm_compute. reflexivity.
Defined.

(** ** The trend analyzer, further *)

Lemma in_insert_by_timestamp (r x : row) (l : list row) :
  In x (insert_by_timestamp r l) <-> x = r \/ In x l.
Proof.
  induction l as [|y l IH]; simpl.
  - intuition congruence.
  - destruct (timestamp r <=? timestamp y); simpl.
    + intuition congruence.
    + rewrite IH. intuition congruence.
Qed.

Lemma in_sort_values (x : row) (df : list row) :
  In x (sort_values df) <-> In x df.
Proof.
  unfold sort_values. induction df as [|r df IH]; simpl; [tauto|].
  rewrite in_insert_by_timestamp, IH. intuition congruence.
Qed.

Lemma compare_lt (a b : string) :
  String.compare a b = Lt <-> String_as_OT.lt a b.
Proof. apply String_as_OT.cmp_lt. Qed.

Lemma compare_gt (a b : string) :
  String.compare a b = Gt -> String_as_OT.lt b a.
Proof.
  intros H. apply compare_lt. rewrite String.compare_antisym, H. reflexivity.
Qed.

(** The group keys come out in strictly ascending order. *)
Lemma insert_key_sorted (k : string) (l : list string) :
  StronglySorted String_as_OT.lt l ->
  StronglySorted String_as_OT.lt (insert_key k l).
Proof.
  induction 1 as [|x l Hsorted IH Hall]; simpl.
  - repeat constructor.
  - destruct (String.compare k x) eqn:E.
    + now constructor.
    + apply compare_lt in E. constructor; [now constructor|].
      constructor; [exact E|].
      apply Forall_forall. intros y Hy.
      apply (String_as_OT.lt_trans k x y E).
      now apply (proj1 (Forall_forall _ _) Hall).
    + constructor; [exact IH|].
      apply Forall_forall. intros y Hy.
      apply in_insert_key in Hy as [-> | Hy].
      * now apply compare_gt.
      * now apply (proj1 (Forall_forall _ _) Hall).
Qed.

Lemma group_keys_sorted (df : list row) :
  StronglySorted String_as_OT.lt (group_keys df).
Proof.
  induction df as [|r df IH]; simpl; [constructor|].
  destruct (key_of r); [now apply insert_key_sorted | exact IH].
Qed.

Lemma sorted_keys_nodup (l : list string) :
  StronglySorted String_as_OT.lt l -> NoDup l.
Proof.
  induction 1 as [|x l Hsorted IH Hall]; constructor; [|exact IH].
  intros Hin. apply (proj1 (Forall_forall _ _) Hall) in Hin.
  exact (String_as_OT.lt_not_eq x x Hin eq_refl).
Qed.

Lemma sorted_filter (p : string -> bool) (l : list string) :
  StronglySorted String_as_OT.lt l ->
  StronglySorted String_as_OT.lt (filter p l).
Proof.
  induction 1 as [|x l Hsorted IH Hall]; simpl; [constructor|].
  destruct (p x); [|exact IH]. constructor; [exact IH|].
  apply Forall_forall. intros y Hy. apply filter_In in Hy as [Hy _].
  now apply (proj1 (Forall_forall _ _) Hall).
Qed.

Lemma flagged_tokens_are_keys (df : list row) (keys : list string) :
  map fst
    (flat_map
       (fun token =>
          match token_signal (hourly token df) with
          | Some change => [(token, change)]
          | None => []
          end) keys)
  = filter
      (fun token =>
         match token_signal (hourly token df) with
         | Some _ => true
         | None => false
         end) keys.
Proof.
  induction keys as [|k keys IH]; simpl; [reflexivity|].
  rewrite map_app, IH. now destruct (token_signal (hourly k df)).
Qed.

(** The analyzer gives at most one signal per token, in ascending order of
    the token addresses, and only for token addresses of stored
    snapshots. *)
Theorem one_signal_per_stored_token (snaps : list row) :
  StronglySorted String_as_OT.lt (map fst (analyze_token_trends snaps))
  /\ NoDup (map fst (analyze_token_trends snaps))
  /\ forall (token : string) (change : float),
      In (token, change) (analyze_token_trends snaps) ->
      exists r : row, In r snaps /\ token_address (snapshot r) = PStr token.
Proof.
  assert (Hsorted : StronglySorted String_as_OT.lt
                      (map fst (analyze_token_trends snaps))).
  { unfold analyze_token_trends. destruct snaps as [|r0 snaps']; [constructor|].
    rewrite flagged_tokens_are_keys.
    apply sorted_filter, group_keys_sorted. }
  split; [exact Hsorted|]. split; [now apply sorted_keys_nodup|].
  intros token change Hin.
  apply analyze_token_trends_in in Hin.
  assert (Hne : hourly token (sort_values snaps) <> []).
  { intros E. rewrite E in Hin. discriminate Hin. }
  apply hourly_group_key, in_group_keys in Hne as (r & Hr & Hkey).
  exists r. split; [now apply in_sort_values|].
  unfold key_of in Hkey.
  destruct (token_address (snapshot r)); try discriminate. congruence.
Qed.

Lemma resample_last_one_hour (g : list row) (h : Z) :
  (forall r, In r g -> hour_of (timestamp r) = h) ->
  (List.length (resample_last g) <= 1)%nat
  /\ forall h' p, In (h', p) (resample_last g) -> h' = h.
Proof.
  induction g as [|r g IH]; intros Hall.
  - simpl. split; [lia | tauto].
  - destruct IH as [Hlen Hhours]; [intros x Hx; apply Hall; now right|].
    cbn [resample_last]. rewrite (Hall r (or_introl eq_refl)).
    destruct (F64.is_nan (price_of r)); [now split|].
    destruct (resample_last g) as [|[h' p'] rest].
    + split; [simpl; lia|]. intros h'' p [H | []]. now injection H as <- _.
    + pose proof (Hhours h' p' (or_introl eq_refl)) as ->.
      rewrite Z.eqb_refl. now split.
Qed.

(** A token whose snapshots all fall into one hourly bucket is never
    flagged, however its price moved within the hour. *)
Theorem single_hour_token_is_never_flagged
    (snaps : list row) (token : string) (h : Z) :
  (forall r, In r snaps -> key_of r = Some token -> hour_of (timestamp r) = h) ->
  forall change : float, ~ In (token, change) (analyze_token_trends snaps).
Proof.
  intros Hall change Hin.
  apply analyze_token_trends_in, token_signal_some in Hin as (Hlen & _).
  unfold hourly in Hlen. rewrite length_map in Hlen.
  destruct (resample_last_one_hour (group token (sort_values snaps)) h) as [Hle _].
  - intros r Hr. apply in_group in Hr as [Hr Hkey].
    apply Hall; [now apply in_sort_values | exact Hkey].
  - lia.
Qed.

Lemma single_hour_token_is_never_flagged_witness :
  ~ In ("0xA", F64.inf)
       (analyze_token_trends (Examples.one_hour F64.zero Examples.f_1_6)).
Proof.
  apply (single_hour_token_is_never_flagged _ "0xA" 0).
  intros r [<- | [<- | []]] _; reflexivity.
Defined.

Lemma percent_change_same (x : float) :
  F64.is_nan x = false ->
  F64.ltb (F64.of_Z 50) (percent_change x x) = false.
Proof.
  unfold percent_change. rewrite of_Z_100, of_Z_50.
  destruct x as [[] | [] | | s m e]; intros Hnan; try reflexivity;
    try discriminate Hnan.
  assert (E : F64.sub (S754_finite s m e) (S754_finite s m e) = S754_zero false).
  { unfold F64.sub, SFsub. rewrite Z.sub_diag. reflexivity. }
  rewrite E. now destruct s.
Qed.

(** A token whose last hourly price equals its first is never flagged. *)
Theorem unchanged_price_is_never_flagged (snaps : list row) (token : string) :
  List.hd F64.zero (hourly token (sort_values snaps))
  = List.last (hourly token (sort_values snaps)) F64.zero ->
  forall change : float, ~ In (token, change) (analyze_token_trends snaps).
Proof.
  intros Hsame change Hin.
  apply analyze_token_trends_in, token_signal_some in Hin as (Hlen & -> & Hgt).
  rewrite Hsame, percent_change_same in Hgt; [discriminate|].
  apply (hourly_not_nan token (sort_values snaps)), last_in.
  intros E. rewrite E in Hlen. simpl in Hlen. lia.
Qed.

Lemma unchanged_price_is_never_flagged_witness :
  ~ In ("0xA", F64.zero)
       (analyze_token_trends (Examples.two_hours Examples.f_1_6 Examples.f_1_6)).
Proof.
  apply (unchanged_price_is_never_flagged _ "0xA").
  vm_compute. reflexivity.
Defined.

(** ** The alerts *)

(** The alerts of a cycle: one per flagged token, in order, when the bot
    token and the chat id are configured, and none otherwise; sending raises
    nothing and touches neither the session nor the table. *)
Theorem notify_all_sends_one_alert_per_signal
    (flagged : list (string * float)) (cfg : config) (st : state) :
  notify_all flagged cfg st
  = (Ok tt,
     {| trace :=
          trace st
          ++ (if opt_truthy (bot_token (telegram cfg))
                 && opt_truthy (chat_id (telegram cfg))
              then map (fun tp => EvTelegram (fst tp) (snd tp)) flagged
              else []);
        pending := pending st;
        store := store st |}).
Proof. apply notify_all_run. Qed.
